(** * TgMusicBot: the chat watcher ([src/modules/watcher.py])

    A shallow embedding of the two update handlers of the watcher module,
    [chat_member] and [new_message], and of the helpers they call, followed
    by the properties of the handlers.

    The handlers are [async] functions that call the Telegram client, the
    database, the admin cache and the assistant pool.  Every such call is
    recorded, in order, in a trace, together with the log lines and the
    sleeps between them.

    Conventions of the model:
    - a collaborator call returns; where the code looks at what it returns
      ([getSupergroupFullInfo], [call.get_client]) the answer is a function
      of the id asked about, carried by the client or passed in; where the
      code drops the returned value, the value is not modelled;
    - an update names a user as its subject ([member_id] is a
      [MessageSenderUser], so [member_id.user_id] is there to read); on
      such updates the one exception the module's own code raises is the
      [ValueError] of [int], which the [try] of [chat_member] catches;
    - a notice is the text the code builds, a log line is its format
      string with its arguments. *)

From Stdlib Require Import ZArith String Ascii List Decimal DecimalString.
From Stdlib Require DecimalPos DecimalZ.
From stdpp Require Import base option gmap strings.
Import ListNotations.

#[local] Open Scope string_scope.
#[local] Open Scope Z_scope.

(** * Python primitives the module relies on *)

Module Py.

(** [str(n)] for an [int]: decimal digits, a leading [-] for negatives. *)
Definition str (n : Z) : string := NilZero.string_of_int (Z.to_int n).

(** [s.startswith(p)]. *)
Definition startswith (s p : string) : bool := String.prefix p s.

(** [s[n:]]. *)
Fixpoint slice_from (n : nat) (s : string) : string :=
  match n, s with
  | O, _ => s
  | S n', String _ s' => slice_from n' s'
  | S _, EmptyString => EmptyString
  end.

(** [int(s)] for the strings [str] produces and their suffixes: an optional
    [-], then at least one decimal digit; anything else is [ValueError],
    here [None]. *)
Definition int (s : string) : option Z :=
  option_map Z.of_int (NilZero.int_of_string s).

(** [s in {t1, ..., tn}] for strings. *)
Definition in_ (s : string) (l : list string) : bool := existsb (String.eqb s) l.

(** The newline of a string literal. *)
Definition nl : string := String (ascii_of_nat 10) EmptyString.

End Py.

(** * Data the handlers see *)

(** The [@type] tags of [ChatMemberStatus] the module compares against. *)
Definition chatMemberStatusLeft : string := "chatMemberStatusLeft".
Definition chatMemberStatusMember : string := "chatMemberStatusMember".
Definition chatMemberStatusAdministrator : string := "chatMemberStatusAdministrator".
Definition chatMemberStatusBanned : string := "chatMemberStatusBanned".

(** [types.UpdateChatMember], with the four fields [chat_member] reads:
    [update.chat_id], [update.new_chat_member.member_id.user_id],
    [update.old_chat_member.status["@type"]] and
    [update.new_chat_member.status["@type"]]. *)
Record UpdateChatMember := {
  chat_id : Z;
  user_id : Z;
  old_status : string;
  new_status : string
}.

(** [message.content], by the two classes [new_message] tests for. *)
Inductive MessageContent :=
| MessageVideoChatEnded
| MessageVideoChatStarted
| MessageOther.

Record Message := {
  message_chat_id : Z;
  content : MessageContent
}.

(** [types.UpdateNewMessage]; [message] may be [None]. *)
Record UpdateNewMessage := {
  message : option Message
}.

(** The reply markups the module attaches to a notice. *)
Inductive Markup :=
| add_me_markup (bot_username : string)
| SupportButton.

(** What [client.getSupergroupFullInfo] hands back: the full info, of which
    only [member_count] is read, or a [types.Error]. *)
Inductive SupergroupFullInfoResult :=
| SupergroupFullInfo (member_count : Z)
| SupergroupFullInfoError.

(** What [call.get_client] hands back: an assistant client, of which only
    [me.id] is read, a [types.Error], or [None]. *)
Inductive GetClientResult :=
| Assistant (me_id : Z)
| GetClientError
| GetClientNone.

(** The bot client, as far as the module reads it: [client.options["my_id"]],
    [client.me.usernames.editable_username], and the transport's answer to
    [getSupergroupFullInfo]. *)
Record Client := {
  my_id : Z;
  editable_username : string;
  supergroup_full_info : Z -> SupergroupFullInfoResult
}.

(** Exceptions raised by the module's own code. *)
Inductive Exn :=
| ValueError.

Inductive Level := DEBUG | INFO | WARNING | ERROR.

(** Arguments of a [LOGGER] call, kept beside the format string. *)
Inductive LogArg :=
| AInt (n : Z)
| AStr (s : string)
| AExn (e : Exn)
| AMsg (m : Message).

(** Everything a handler does to the outside, in the order it does it. *)
Inductive Event :=
| SendTextMessage (chat : Z) (text : string) (reply_markup : option Markup)
| LeaveChat (chat : Z)
| GetSupergroupFullInfo (supergroup : Z)
| DbAddChat (chat : Z)
| DbRemoveChat (chat : Z)
| LoadAdminCache (chat : Z) (force : bool)
| ClearChat (chat : Z)
| GetClient (chat : Z)
| Sleep (seconds : Z)
| Log (level : Level) (fmt : string) (args : list LogArg).

(** The process state: the trace of events so far and the module-global
    dict [user_status_cache] of [play_helpers]. *)
Record World := {
  trace : list Event;
  user_status_cache : gmap string string
}.

(** * Coroutines as state passing with exceptions *)

Inductive Outcome (A : Type) :=
| Return (a : A)
| Raise (e : Exn).
Arguments Return {A} a.
Arguments Raise {A} e.

Definition Async (A : Type) : Type := World -> Outcome A * World.

Definition ret {A} (a : A) : Async A := fun w => (Return a, w).

Definition bind {A B} (m : Async A) (k : A -> Async B) : Async B :=
  fun w =>
    match m w with
    | (Return a, w') => k a w'
    | (Raise e, w') => (Raise e, w')
    end.

Definition raise {A} (e : Exn) : Async A := fun w => (Raise e, w).

(** [try: body / except Exception as e: handler e]. *)
Definition try_except {A} (body : Async A) (handler : Exn -> Async A) : Async A :=
  fun w =>
    match body w with
    | (Return a, w') => (Return a, w')
    | (Raise e, w') => handler e w'
    end.

Definition emit (e : Event) : Async unit :=
  fun w => (Return tt,
            {| trace := trace w ++ [e]; user_status_cache := user_status_cache w |}).

Declare Scope async_scope.
Delimit Scope async_scope with async.
Notation "x <- m ;; k" := (bind m (fun x => k))
  (at level 100, m at next level, right associativity) : async_scope.
Notation "m ;; k" := (bind m (fun _ => k))
  (at level 100, right associativity) : async_scope.
#[local] Open Scope async_scope.

(** * The collaborators *)

Definition sendTextMessage (chat : Z) (text : string) (reply_markup : option Markup)
  : Async unit := emit (SendTextMessage chat text reply_markup).

Definition leaveChat (chat : Z) : Async unit := emit (LeaveChat chat).

Definition getSupergroupFullInfo (client : Client) (supergroup : Z)
  : Async SupergroupFullInfoResult :=
  emit (GetSupergroupFullInfo supergroup) ;; ret (supergroup_full_info client supergroup).

Definition asyncio_sleep (seconds : Z) : Async unit := emit (Sleep seconds).

Definition load_admin_cache (client : Client) (chat : Z) (force : bool) : Async unit :=
  emit (LoadAdminCache chat force).

Definition LOGGER (level : Level) (fmt : string) (args : list LogArg) : Async unit :=
  emit (Log level fmt args).

Module db.
Definition add_chat (chat : Z) : Async unit := emit (DbAddChat chat).
Definition remove_chat (chat : Z) : Async unit := emit (DbRemoveChat chat).
End db.

Module chat_cache.
Definition clear_chat (chat : Z) : Async unit := emit (ClearChat chat).
End chat_cache.

(** [user_status_cache[key] = status]. *)
Definition user_status_cache_set (key status : string) : Async unit :=
  fun w => (Return tt,
            {| trace := trace w;
               user_status_cache := <[key := status]> (user_status_cache w) |}).

(** [int(s)] inside a coroutine: a [ValueError] unwinds it. *)
Definition py_int (s : string) : Async Z :=
  match Py.int s with
  | Some n => ret n
  | None => raise ValueError
  end.

(** * The module *)

Section Watcher.

(** [call.get_client]: which assistant, if any, serves a chat. *)
Variable call_get_client : Z -> GetClientResult.

Definition get_client (chat : Z) : Async GetClientResult :=
  emit (GetClient chat) ;; ret (call_get_client chat).

Definition non_supergroup_text (chat_id : Z) : string :=
  "This chat (" +:+ Py.str chat_id +:+ ") is not a supergroup yet." +:+ Py.nl +:+
  "<b>⚠️ Please convert this chat to a supergroup and add me as admin.</b>"
    +:+ Py.nl +:+ Py.nl +:+
  "If you don't know how to convert, use this guide:" +:+ Py.nl +:+
  "🔗 https://te.legra.ph/How-to-Convert-a-Group-to-a-Supergroup-01-02"
    +:+ Py.nl +:+ Py.nl +:+
  "If you have any questions, join our support group:".

(** Notify user that the chat is not a supergroup and leave. *)
Definition handle_non_supergroup (client : Client) (chat_id : Z) : Async unit :=
  let text := non_supergroup_text chat_id in
  let bot_username := editable_username client in
  sendTextMessage chat_id text (Some (add_me_markup bot_username)) ;;
  asyncio_sleep 1 ;;
  leaveChat chat_id.

(** Check if a chat ID is for a supergroup. *)
Definition is_valid_supergroup (chat_id : Z) : bool :=
  Py.startswith (Py.str chat_id) "-100".

Definition too_few_members_text (member_count : Z) : string :=
  "⚠️ This group has too few members (" +:+ Py.str member_count +:+ ")."
    +:+ Py.nl +:+ Py.nl +:+
  "To prevent spam and ensure proper functionality, " +:+
  "this bot only works in groups with at least 50 members." +:+ Py.nl +:+
  "Please grow your community and add me again later." +:+ Py.nl +:+
  "If you have any questions, join our support group:".

(** Handle logic when bot is added to a new chat.  The parameter [chat_id]
    is rebound on the second line, as in the source. *)
Definition handle_bot_join (client : Client) (chat_id : Z) : Async unit :=
  LOGGER INFO "Bot joined the chat %s." [AInt chat_id] ;;
  chat_id <- (if Py.startswith (Py.str chat_id) "-100"
              then py_int (Py.slice_from 4 (Py.str chat_id))
              else ret chat_id) ;;
  chat_info <- getSupergroupFullInfo client chat_id ;;
  match chat_info with
  | SupergroupFullInfoError =>
      LOGGER WARNING "Failed to get supergroup info for %s" [AInt chat_id]
  | SupergroupFullInfo member_count =>
      if (member_count <? 50)%Z then
        let text := too_few_members_text member_count in
        sendTextMessage chat_id text (Some SupportButton) ;;
        asyncio_sleep 1 ;;
        leaveChat chat_id ;;
        db.remove_chat chat_id
      else ret tt
  end.

(** Validate if chat is a supergroup and handle non-supergroups. *)
Definition _validate_chat (client : Client) (chat_id : Z) : Async bool :=
  if negb (is_valid_supergroup chat_id) then
    handle_non_supergroup client chat_id ;;
    ret false
  else ret true.

(** The cache key [f"{chat_id}:{ub.me.id}"]. *)
Definition status_key (chat_id me_id : Z) : string :=
  Py.str chat_id +:+ ":" +:+ Py.str me_id.

(** Update the user status cache if the user is the bot. *)
Definition _update_user_status_cache (chat_id user_id : Z) (status : string)
  : Async unit :=
  ub <- get_client chat_id ;;
  match ub with
  | GetClientError | GetClientNone => ret tt
  | Assistant me_id =>
      if (user_id =? me_id)%Z then
        let user_key := status_key chat_id me_id in
        user_status_cache_set user_key status
      else ret tt
  end.

(** Handle user/bot joining the chat. *)
Definition _handle_join (client : Client) (chat_id user_id : Z) : Async unit :=
  (if (user_id =? my_id client)%Z then handle_bot_join client chat_id else ret tt) ;;
  LOGGER INFO "User %s joined the chat %s." [AInt user_id; AInt chat_id].

(** Handle user leaving or being kicked from chat. *)
Definition _handle_leave_or_kick (chat_id user_id : Z) : Async unit :=
  LOGGER INFO "User %s left or was kicked from %s." [AInt user_id; AInt chat_id] ;;
  _update_user_status_cache chat_id user_id chatMemberStatusLeft.

(** Handle user being banned from chat. *)
Definition _handle_ban (chat_id user_id : Z) : Async unit :=
  LOGGER INFO "User %s was banned in %s." [AInt user_id; AInt chat_id] ;;
  _update_user_status_cache chat_id user_id chatMemberStatusBanned.

(** Handle user being unbanned from chat. *)
Definition _handle_unban (chat_id user_id : Z) : Async unit :=
  LOGGER INFO "User %s was unbanned in %s." [AInt user_id; AInt chat_id] ;;
  _update_user_status_cache chat_id user_id chatMemberStatusLeft.

Definition is_promoted (old_status new_status : string) : bool :=
  negb (String.eqb old_status chatMemberStatusAdministrator)
  && String.eqb new_status chatMemberStatusAdministrator.

Definition is_demoted (old_status new_status : string) : bool :=
  String.eqb old_status chatMemberStatusAdministrator
  && negb (String.eqb new_status chatMemberStatusAdministrator).

(** Handle user promotion/demotion in chat. *)
Definition _handle_promotion_demotion
    (client : Client) (chat_id user_id : Z) (old_status new_status : string)
  : Async unit :=
  let is_promoted := is_promoted old_status new_status in
  let is_demoted := is_demoted old_status new_status in
  if negb (is_promoted || is_demoted) then ret tt
  else
    (if (user_id =? my_id client)%Z && is_promoted then
       LOGGER INFO "Bot promoted in %s. Reloading admin cache." [AInt chat_id]
     else
       let action := if is_promoted then "promoted" else "demoted" in
       LOGGER INFO "User %s was %s in %s." [AInt user_id; AStr action; AInt chat_id]) ;;
    load_admin_cache client chat_id true.

(** Route different status change scenarios to appropriate handlers. *)
Definition _handle_status_changes
    (client : Client) (chat_id user_id : Z) (old_status new_status : string)
  : Async unit :=
  if String.eqb old_status chatMemberStatusLeft
     && Py.in_ new_status [chatMemberStatusMember; chatMemberStatusAdministrator]
  then _handle_join client chat_id user_id
  else if Py.in_ old_status [chatMemberStatusMember; chatMemberStatusAdministrator]
          && String.eqb new_status chatMemberStatusLeft
  then _handle_leave_or_kick chat_id user_id
  else if String.eqb new_status chatMemberStatusBanned
  then _handle_ban chat_id user_id
  else if String.eqb old_status chatMemberStatusBanned
          && String.eqb new_status chatMemberStatusLeft
  then _handle_unban chat_id user_id
  else _handle_promotion_demotion client chat_id user_id old_status new_status.

(** Handles member updates in the chat (joins, leaves, promotions, etc.). *)
Definition chat_member (client : Client) (update : UpdateChatMember) : Async unit :=
  let chat_id := chat_id update in
  (* Early return for non-group chats *)
  skip <- (if (chat_id >? 0)%Z then ret true
           else valid <- _validate_chat client chat_id ;; ret (negb valid)) ;;
  if skip : bool then ret tt
  else
    try_except
      (db.add_chat chat_id ;;
       let user_id := user_id update in
       let old_status := old_status update in
       let new_status := new_status update in
       (* Skip invalid user IDs *)
       if (user_id =? 0)%Z then ret tt
       else
         (* Handle different status change scenarios *)
         _handle_status_changes client chat_id user_id old_status new_status)
      (fun e =>
         LOGGER ERROR "Error processing chat member update in %s: %s"
                [AInt chat_id; AExn e]).

(** Handle new messages for video chat events. *)
Definition new_message (client : Client) (update : UpdateNewMessage) : Async unit :=
  match message update with
  | None => ret tt
  | Some message =>
      let chat_id := message_chat_id message in
      match content message with
      | MessageVideoChatEnded =>
          LOGGER INFO "Video chat ended in %s" [AInt chat_id] ;;
          chat_cache.clear_chat chat_id ;;
          sendTextMessage chat_id ("Video chat ended!" +:+ Py.nl +:+ "all queues cleared") None
      | MessageVideoChatStarted =>
          LOGGER INFO "Video chat started in %s" [AInt chat_id] ;;
          chat_cache.clear_chat chat_id ;;
          sendTextMessage chat_id
            ("Video chat started!" +:+ Py.nl +:+ "use /play song name to play a song") None
      | MessageOther =>
          LOGGER DEBUG "New message in %s: %s" [AInt chat_id; AMsg message]
      end
  end.

End Watcher.

Arguments non_supergroup_text : simpl never.
Arguments too_few_members_text : simpl never.
Arguments status_key : simpl never.

(** * Observing a run *)

(** The collaborator calls: every event but log lines and sleeps. *)
Definition is_call (e : Event) : bool :=
  match e with
  | Log _ _ _ | Sleep _ => false
  | _ => true
  end.

Definition calls (tr : list Event) : list Event := List.filter is_call tr.

(** The world once [evs] have happened after [w], the cache as it was. *)
Definition after (w : World) (evs : list Event) : World :=
  {| trace := trace w ++ evs; user_status_cache := user_status_cache w |}.

(** The world with one cache entry written, the trace as it was. *)
Definition cached (w : World) (key status : string) : World :=
  {| trace := trace w; user_status_cache := <[key := status]> (user_status_cache w) |}.

(** What a step does to the cache does not depend on the world it starts
    from: it leaves the cache alone, or it writes one fixed entry. *)
Definition writes_at_most_one_entry (step : World -> World) : Prop :=
  (forall w, user_status_cache (step w) = user_status_cache w)
  \/ (exists key status, forall w,
        user_status_cache (step w) = <[key := status]> (user_status_cache w)).

(** What [handle_non_supergroup] does, event by event. *)
Definition reject_events (client : Client) (chat : Z) : list Event :=
  [SendTextMessage chat (non_supergroup_text chat)
     (Some (add_me_markup (editable_username client)));
   Sleep 1;
   LeaveChat chat].

(** The Reject flow in the specification's words: the explanatory notice
    is sent to the chat, then the chat is left. *)
Definition reject_flow (client : Client) (chat : Z) : list Event :=
  [SendTextMessage chat (non_supergroup_text chat)
     (Some (add_me_markup (editable_username client)));
   LeaveChat chat].

(** The chat a call of the bot-join check is addressed to. *)
Definition bot_join_target (e : Event) : option Z :=
  match e with
  | GetSupergroupFullInfo c | SendTextMessage c _ _ | LeaveChat c | DbRemoveChat c =>
      Some c
  | _ => None
  end.

(** The events of a run that started in [w] and ended in [w']. *)
Definition events_since (w w' : World) : list Event :=
  skipn (List.length (trace w)) (trace w').

(** The transitions taken by one of the three rules whose handler goes to
    the status cache: leave or kick, ban, unban. *)
Definition reaches_cache (old new : string) : Prop :=
  ((old = chatMemberStatusMember \/ old = chatMemberStatusAdministrator) /\
   new = chatMemberStatusLeft)
  \/ new = chatMemberStatusBanned
  \/ (old = chatMemberStatusBanned /\ new = chatMemberStatusLeft).

(** The updates that get as far as writing the cache: in a supergroup, a
    subject that is not zero and is the assistant of the chat, on one of
    those transitions. *)
Definition writes_cache (call_get_client : Z -> GetClientResult)
    (u : UpdateChatMember) : Prop :=
  is_valid_supergroup (chat_id u) = true /\
  user_id u <> 0 /\
  call_get_client (chat_id u) = Assistant (user_id u) /\
  reaches_cache (old_status u) (new_status u).

(** The transitions after which the admin list is reloaded: the
    administrator status came or went, and no earlier rule took the
    transition. *)
Definition reloads_admins (old new : string) : Prop :=
  (new = chatMemberStatusAdministrator /\
   old <> chatMemberStatusAdministrator /\ old <> chatMemberStatusLeft)
  \/ (old = chatMemberStatusAdministrator /\
      new <> chatMemberStatusAdministrator /\
      new <> chatMemberStatusLeft /\ new <> chatMemberStatusBanned).

(** The join rule: from left to member or administrator. *)
Definition joins (old new : string) : Prop :=
  old = chatMemberStatusLeft /\
  (new = chatMemberStatusMember \/ new = chatMemberStatusAdministrator).

(** The updates that end in the kick addressed to [n]: the bot itself
    joins a supergroup, the id cut from the chat id is [n], and the lookup
    of [n] reports fewer than 50 members. *)
Definition kicks (client : Client) (u : UpdateChatMember) (n : Z) : Prop :=
  is_valid_supergroup (chat_id u) = true /\
  user_id u <> 0 /\
  user_id u = my_id client /\
  joins (old_status u) (new_status u) /\
  Py.int (Py.slice_from 4 (Py.str (chat_id u))) = Some n /\
  exists member_count,
    supergroup_full_info client n = SupergroupFullInfo member_count /\
    member_count < 50.

(** * Concrete runs *)

Module Ex.

Definition w0 : World := {| trace := []; user_status_cache := ∅ |}.

(** A bot with id 777 whose every supergroup lookup reports [n] members. *)
Definition bot (n : Z) : Client :=
  {| my_id := 777;
     editable_username := "TgMusicBot";
     supergroup_full_info := fun _ => SupergroupFullInfo n |}.

(** A bot whose supergroup lookups fail. *)
Definition bot_offline : Client :=
  {| my_id := 777;
     editable_username := "TgMusicBot";
     supergroup_full_info := fun _ => SupergroupFullInfoError |}.

(** The assistant of every chat is the account 777. *)
Definition assistant (_ : Z) : GetClientResult := Assistant 777.

Definition upd (c uid : Z) (old new : string) : UpdateChatMember :=
  {| chat_id := c; user_id := uid; old_status := old; new_status := new |}.

Definition supergroup : Z := -1001234567890.

Definition video_chat_ended (c : Z) : UpdateNewMessage :=
  {| message := Some {| message_chat_id := c; content := MessageVideoChatEnded |} |}.

End Ex.

(** * The Python primitives on examples *)

Example str_negative : Py.str (-1001234) = "-1001234".
Proof. reflexivity. Qed.

Example str_zero : Py.str 0 = "0".
Proof. reflexivity. Qed.

Example int_of_empty : Py.int "" = None.
Proof. reflexivity. Qed.

Example int_leading_zeros : Py.int "0012" = Some 12.
Proof. reflexivity. Qed.

Example slice_from_four : Py.slice_from 4 "-1001234" = "1234".
Proof. reflexivity. Qed.

Example valid_supergroup_ex : is_valid_supergroup Ex.supergroup = true.
Proof. reflexivity. Qed.

Example invalid_basic_group_ex : is_valid_supergroup (-5) = false.
Proof. reflexivity. Qed.

(** * The identifier convention *)

(** A valid supergroup id is negative and its digits start with 100. *)
Lemma valid_supergroup_digits (c : Z) :
  is_valid_supergroup c = true ->
  exists d, Z.to_int c = Neg (D1 (D0 (D0 d))).
Proof.
  unfold is_valid_supergroup, Py.startswith, Py.str.
  destruct c as [|p|p]; simpl.
  - discriminate.
  - destruct (Pos.to_uint p); simpl; discriminate.
  - destruct (Pos.to_uint p) as [|d|d|d|d|d|d|d|d|d|d]; simpl; try discriminate.
    destruct d as [|d|d|d|d|d|d|d|d|d|d]; simpl; try discriminate.
    destruct d as [|d|d|d|d|d|d|d|d|d|d]; simpl; try discriminate.
    intros _. now exists d.
Qed.

Lemma valid_supergroup_negative (c : Z) :
  is_valid_supergroup c = true -> c < 0.
Proof.
  intros H. destruct (valid_supergroup_digits c H) as [d Hd].
  destruct c; simpl in Hd; try discriminate. lia.
Qed.

Lemma valid_not_positive (c : Z) :
  is_valid_supergroup c = true -> (c >? 0) = false.
Proof. intros H%valid_supergroup_negative. lia. Qed.

Lemma int_of_digits (d : uint) :
  Py.int (NilEmpty.string_of_uint d) =
  match d with Nil => None | _ => Some (Z.of_uint d) end.
Proof.
  unfold Py.int, NilZero.int_of_string.
  destruct d; simpl; try reflexivity; rewrite NilEmpty.usu; reflexivity.
Qed.

Lemma stripped_digits (c : Z) (d : uint) :
  Z.to_int c = Neg (D1 (D0 (D0 d))) ->
  Py.slice_from 4 (Py.str c) = NilEmpty.string_of_uint d.
Proof. unfold Py.str. intros ->. reflexivity. Qed.

(** The id left once the prefix is cut off is never negative, so it is
    never the id it was cut from. *)
Lemma stripped_id_nonneg (c n : Z) :
  is_valid_supergroup c = true ->
  Py.int (Py.slice_from 4 (Py.str c)) = Some n ->
  0 <= n.
Proof.
  intros Hv. destruct (valid_supergroup_digits c Hv) as [d Hd].
  rewrite (stripped_digits c d Hd), int_of_digits.
  destruct d; intros [= <-]; unfold Z.of_uint; apply N2Z.is_nonneg.
Qed.

Lemma stripped_id_differs (c n : Z) :
  is_valid_supergroup c = true ->
  Py.int (Py.slice_from 4 (Py.str c)) = Some n ->
  n <> c.
Proof.
  intros Hv Hn.
  pose proof (valid_supergroup_negative c Hv).
  pose proof (stripped_id_nonneg c n Hv Hn). lia.
Qed.

(** * Running the handlers *)

Ltac unfold_handlers :=
  unfold chat_member, _validate_chat, handle_non_supergroup, _handle_status_changes,
    _handle_join, _handle_leave_or_kick, _handle_ban, _handle_unban,
    _handle_promotion_demotion, _update_user_status_cache, handle_bot_join,
    new_message, get_client, getSupergroupFullInfo, py_int,
    sendTextMessage, leaveChat, asyncio_sleep, load_admin_cache, LOGGER,
    db.add_chat, db.remove_chat, chat_cache.clear_chat, user_status_cache_set,
    try_except, bind, ret, raise, emit in *;
  cbn [chat_id user_id old_status new_status message message_chat_id content] in *.

Ltac close_world :=
  unfold after, cached, reject_events; simpl; rewrite <- ?app_assoc; simpl;
  try rewrite app_nil_r; try reflexivity.

Lemma after_nil (w : World) : after w [] = w.
Proof. destruct w. unfold after. simpl. now rewrite app_nil_r. Qed.

Lemma after_after (w : World) (evs evs' : list Event) :
  after (after w evs) evs' = after w (evs ++ evs').
Proof. unfold after. simpl. now rewrite <- app_assoc. Qed.

Lemma calls_app (tr tr' : list Event) : calls (tr ++ tr') = (calls tr ++ calls tr')%list.
Proof. unfold calls. induction tr as [|e tr IH]; simpl; [easy|]. destruct (is_call e); simpl; now rewrite IH. Qed.

(** The Reject flow of the specification is what the rejection handler
    calls. *)
Lemma calls_reject_events (client : Client) (c : Z) :
  calls (reject_events client c) = reject_flow client c.
Proof. reflexivity. Qed.

Section Runs.

Variable cg : Z -> GetClientResult.
Variable client : Client.

(** A positive chat id ends the handler at once. *)
Lemma chat_member_positive (u : UpdateChatMember) (w : World) :
  0 < chat_id u -> chat_member cg client u w = (Return tt, w).
Proof.
  intros H. unfold_handlers.
  replace (chat_id u >? 0) with true by lia. reflexivity.
Qed.

(** A chat that is neither positive nor a supergroup is rejected. *)
Lemma chat_member_rejected (u : UpdateChatMember) (w : World) :
  chat_id u <= 0 ->
  is_valid_supergroup (chat_id u) = false ->
  chat_member cg client u w = (Return tt, after w (reject_events client (chat_id u))).
Proof.
  intros H Hv. unfold_handlers.
  replace (chat_id u >? 0) with false by lia. rewrite Hv. simpl. close_world.
Qed.

(** In a supergroup the chat is recorded first; then the zero id is
    skipped, or the transition is dispatched inside the [try]. *)
Lemma chat_member_supergroup (u : UpdateChatMember) (w : World) :
  is_valid_supergroup (chat_id u) = true ->
  chat_member cg client u w =
    if (user_id u =? 0)%Z then (Return tt, after w [DbAddChat (chat_id u)])
    else
      match _handle_status_changes cg client (chat_id u) (user_id u)
              (old_status u) (new_status u) (after w [DbAddChat (chat_id u)]) with
      | (Return a, w') => (Return a, w')
      | (Raise e, w') =>
          (Return tt,
           after w' [Log ERROR "Error processing chat member update in %s: %s"
                       [AInt (chat_id u); AExn e]])
      end.
Proof.
  intros Hv. unfold chat_member, _validate_chat, try_except, bind, ret, db.add_chat, emit, LOGGER.
  rewrite (valid_not_positive _ Hv), Hv. simpl.
  destruct (user_id u =? 0)%Z; reflexivity.
Qed.

End Runs.

(** ** The status cache update *)

Section CacheUpdate.

Variable cg : Z -> GetClientResult.

(** The subject is the assistant of the chat: the entry is written. *)
Lemma update_cache_self (c uid : Z) (status : string) (w : World) :
  cg c = Assistant uid ->
  _update_user_status_cache cg c uid status w =
    (Return tt, cached (after w [GetClient c]) (status_key c uid) status).
Proof.
  intros H. unfold_handlers. rewrite H, Z.eqb_refl. reflexivity.
Qed.

(** Anyone else, or no assistant at hand: nothing is written. *)
Lemma update_cache_other (c uid : Z) (status : string) (w : World) :
  cg c <> Assistant uid ->
  _update_user_status_cache cg c uid status w = (Return tt, after w [GetClient c]).
Proof.
  intros H. unfold_handlers. destruct (cg c) as [me| |]; try reflexivity.
  destruct (Z.eqb_spec uid me) as [->|]; [congruence | reflexivity].
Qed.

End CacheUpdate.

(** ** The dispatch *)

Section Dispatch.

Variable cg : Z -> GetClientResult.
Variable client : Client.

Lemma dispatch_join (c uid : Z) (old new : string) :
  old = chatMemberStatusLeft ->
  new = chatMemberStatusMember \/ new = chatMemberStatusAdministrator ->
  _handle_status_changes cg client c uid old new = _handle_join client c uid.
Proof. intros -> [-> | ->]; reflexivity. Qed.

Lemma dispatch_leave_or_kick (c uid : Z) (old new : string) :
  old = chatMemberStatusMember \/ old = chatMemberStatusAdministrator ->
  new = chatMemberStatusLeft ->
  _handle_status_changes cg client c uid old new = _handle_leave_or_kick cg c uid.
Proof. intros [-> | ->] ->; reflexivity. Qed.

(** No rule before the ban rule can take a transition into [Banned]:
    the first wants a new status of member or administrator, the second
    a new status of left. *)
Lemma dispatch_ban (c uid : Z) (old : string) :
  _handle_status_changes cg client c uid old chatMemberStatusBanned = _handle_ban cg c uid.
Proof.
  unfold _handle_status_changes.
  change (Py.in_ chatMemberStatusBanned
            [chatMemberStatusMember; chatMemberStatusAdministrator]) with false.
  change (String.eqb chatMemberStatusBanned chatMemberStatusLeft) with false.
  rewrite !andb_false_r. reflexivity.
Qed.

End Dispatch.

(** ** The bot-join check *)

Section BotJoin.

Variable client : Client.

Lemma handle_bot_join_value_error (c : Z) (w : World) :
  is_valid_supergroup c = true ->
  Py.int (Py.slice_from 4 (Py.str c)) = None ->
  handle_bot_join client c w =
    (Raise ValueError, after w [Log INFO "Bot joined the chat %s." [AInt c]]).
Proof.
  unfold is_valid_supergroup. intros Hv Hn. unfold_handlers. rewrite Hv, Hn. reflexivity.
Qed.

Lemma handle_bot_join_lookup_failed (c n : Z) (w : World) :
  is_valid_supergroup c = true ->
  Py.int (Py.slice_from 4 (Py.str c)) = Some n ->
  supergroup_full_info client n = SupergroupFullInfoError ->
  handle_bot_join client c w =
    (Return tt,
     after w [Log INFO "Bot joined the chat %s." [AInt c];
              GetSupergroupFullInfo n;
              Log WARNING "Failed to get supergroup info for %s" [AInt n]]).
Proof.
  unfold is_valid_supergroup. intros Hv Hn Hi. unfold_handlers.
  rewrite Hv, Hn. simpl. rewrite Hi. close_world.
Qed.

Lemma handle_bot_join_sufficient (c n member_count : Z) (w : World) :
  is_valid_supergroup c = true ->
  Py.int (Py.slice_from 4 (Py.str c)) = Some n ->
  supergroup_full_info client n = SupergroupFullInfo member_count ->
  50 <= member_count ->
  handle_bot_join client c w =
    (Return tt,
     after w [Log INFO "Bot joined the chat %s." [AInt c];
              GetSupergroupFullInfo n]).
Proof.
  unfold is_valid_supergroup. intros Hv Hn Hi Hm. unfold_handlers.
  rewrite Hv, Hn. simpl. rewrite Hi.
  replace (member_count <? 50) with false by lia. close_world.
Qed.

Lemma handle_bot_join_too_small (c n member_count : Z) (w : World) :
  is_valid_supergroup c = true ->
  Py.int (Py.slice_from 4 (Py.str c)) = Some n ->
  supergroup_full_info client n = SupergroupFullInfo member_count ->
  member_count < 50 ->
  handle_bot_join client c w =
    (Return tt,
     after w [Log INFO "Bot joined the chat %s." [AInt c];
              GetSupergroupFullInfo n;
              SendTextMessage n (too_few_members_text member_count) (Some SupportButton);
              Sleep 1;
              LeaveChat n;
              DbRemoveChat n]).
Proof.
  unfold is_valid_supergroup. intros Hv Hn Hi Hm. unfold_handlers.
  rewrite Hv, Hn. simpl. rewrite Hi.
  replace (member_count <? 50) with true by lia. close_world.
Qed.

End BotJoin.

(** * The eligibility filter *)

(** Claim C1, as amended.  A member update for a chat that is not a supergroup
    is answered by the rejection (the notice, a pause, leaving the chat)
    and nothing else, with the cache untouched and no chat record written,
    when the chat id is not positive; a positive chat id ends the handler
    before the filter, with no effect at all.  A lifecycle message is never
    filtered: whatever the chat, supergroup or not, a video chat that ended
    or started clears the chat's runtime state and sends its notice, any
    other message is only traced, an update without a message does
    nothing; the chat is not left and the cache is not touched. *)
Theorem ineligible_chat_rejected_or_ignored
    (cg : Z -> GetClientResult) (client : Client)
    (u : UpdateChatMember) (upd : UpdateNewMessage) (w : World) :
  (is_valid_supergroup (chat_id u) = false ->
   chat_member cg client u w =
     (Return tt,
      after w (if chat_id u >? 0 then [] else reject_events client (chat_id u))))
  /\ new_message client upd w =
    (Return tt,
     after w
       match message upd with
       | None => []
       | Some m =>
           match content m with
           | MessageVideoChatEnded =>
               [Log INFO "Video chat ended in %s" [AInt (message_chat_id m)];
                ClearChat (message_chat_id m);
                SendTextMessage (message_chat_id m)
                  ("Video chat ended!" +:+ Py.nl +:+ "all queues cleared") None]
           | MessageVideoChatStarted =>
               [Log INFO "Video chat started in %s" [AInt (message_chat_id m)];
                ClearChat (message_chat_id m);
                SendTextMessage (message_chat_id m)
                  ("Video chat started!" +:+ Py.nl
                   +:+ "use /play song name to play a song")
                  None]
           | MessageOther =>
               [Log DEBUG "New message in %s: %s" [AInt (message_chat_id m); AMsg m]]
           end
       end).
Proof.
  split.
  - intros Hv. destruct (Z.gtb_spec (chat_id u) 0) as [Hpos | Hneg].
    + rewrite after_nil. now apply chat_member_positive.
    + now apply chat_member_rejected.
  - unfold_handlers. destruct (message upd) as [m|].
    + destruct (content m); close_world.
    + now rewrite after_nil.
Qed.

(** The basic group -5: a member update is rejected, and the end of a video
    chat there is handled like anywhere else. *)
Lemma ineligible_chat_rejected_or_ignored_witness :
  is_valid_supergroup (chat_id (Ex.upd (-5) 42 chatMemberStatusLeft chatMemberStatusMember))
    = false
  /\ chat_member Ex.assistant (Ex.bot 100)
       (Ex.upd (-5) 42 chatMemberStatusLeft chatMemberStatusMember) Ex.w0 =
     (Return tt, after Ex.w0 (reject_events (Ex.bot 100) (-5)))
  /\ calls (trace (snd (new_message (Ex.bot 100) (Ex.video_chat_ended (-5)) Ex.w0))) =
     [ClearChat (-5);
      SendTextMessage (-5) ("Video chat ended!" +:+ Py.nl +:+ "all queues cleared") None].
Proof.
  split; [reflexivity |]. split.
  - exact (proj1 (ineligible_chat_rejected_or_ignored Ex.assistant (Ex.bot 100)
                    (Ex.upd (-5) 42 chatMemberStatusLeft chatMemberStatusMember)
                    (Ex.video_chat_ended (-5)) Ex.w0) eq_refl).
  - rewrite (proj2 (ineligible_chat_rejected_or_ignored Ex.assistant (Ex.bot 100)
                      (Ex.upd (-5) 42 chatMemberStatusLeft chatMemberStatusMember)
                      (Ex.video_chat_ended (-5)) Ex.w0)).
    reflexivity.
Defined.

(** Claim C1 fails as stated: the private chat 5 is not a supergroup, yet a
    member update for it makes no call at all; and the basic group -5 is
    not a supergroup, yet the end of a video chat there clears the chat's
    state and sends the video chat notice instead of the rejection. *)
Lemma ineligible_chat_not_always_rejected :
  (is_valid_supergroup 5 = false /\
   calls (trace (snd (chat_member Ex.assistant (Ex.bot 100)
                        (Ex.upd 5 42 chatMemberStatusLeft chatMemberStatusMember) Ex.w0)))
     <> reject_flow (Ex.bot 100) 5)
  /\
  (is_valid_supergroup (-5) = false /\
   calls (trace (snd (new_message (Ex.bot 100) (Ex.video_chat_ended (-5)) Ex.w0)))
     <> reject_flow (Ex.bot 100) (-5)).
Proof.
  repeat split; try reflexivity; vm_compute; discriminate.
Qed.

(** * The zero subject *)

(** Claim C2, as amended.  In a supergroup an update whose subject id is zero
    is dropped before any transition rule is looked at, whatever the two
    statuses are; by then the chat has been recorded, and that is the only
    call made: no message, no leaving, no cache entry. *)
Theorem zero_subject_only_records_chat
    (cg : Z -> GetClientResult) (client : Client) (u : UpdateChatMember) (w : World) :
  is_valid_supergroup (chat_id u) = true ->
  user_id u = 0 ->
  chat_member cg client u w = (Return tt, after w [DbAddChat (chat_id u)]).
Proof.
  intros Hv Hu. rewrite chat_member_supergroup by assumption. now rewrite Hu.
Qed.

(** A zero subject in a supergroup: the chat is recorded, nothing more. *)
Lemma zero_subject_only_records_chat_witness :
  is_valid_supergroup (chat_id (Ex.upd Ex.supergroup 0 chatMemberStatusMember
                                  chatMemberStatusBanned)) = true
  /\ user_id (Ex.upd Ex.supergroup 0 chatMemberStatusMember chatMemberStatusBanned) = 0
  /\ chat_member Ex.assistant (Ex.bot 100)
       (Ex.upd Ex.supergroup 0 chatMemberStatusMember chatMemberStatusBanned) Ex.w0 =
     (Return tt, after Ex.w0 [DbAddChat Ex.supergroup]).
Proof.
  split; [reflexivity | split; [reflexivity |]].
  apply (zero_subject_only_records_chat Ex.assistant (Ex.bot 100)
           (Ex.upd Ex.supergroup 0 chatMemberStatusMember chatMemberStatusBanned) Ex.w0);
    reflexivity.
Defined.

(** Claim C2 fails as stated: with subject id zero in a supergroup, one
    collaborator call is made, the persistence write that records the
    chat. *)
Lemma zero_subject_still_writes_chat_record :
  user_id (Ex.upd Ex.supergroup 0 chatMemberStatusLeft chatMemberStatusMember) = 0
  /\ calls (trace (snd (chat_member Ex.assistant (Ex.bot 100)
                          (Ex.upd Ex.supergroup 0 chatMemberStatusLeft
                             chatMemberStatusMember) Ex.w0)))
     = [DbAddChat Ex.supergroup]
  /\ calls (trace (snd (chat_member Ex.assistant (Ex.bot 100)
                          (Ex.upd Ex.supergroup 0 chatMemberStatusLeft
                             chatMemberStatusMember) Ex.w0)))
     <> [].
Proof.
  repeat split; try reflexivity; vm_compute; discriminate.
Qed.

(** * Promotions and demotions *)

(** Claim C3, as amended.  The forced reload of the admin list follows every
    promotion and every demotion that reaches the promotion rule, whoever
    the subject is; a promotion of the bot differs from the others only in
    the line that is logged; when the administrator status neither came nor
    went, nothing happens.  So, in a supergroup, a demotion of the bot
    followed by its promotion reloads the list twice, once per update. *)
Theorem reload_on_every_promotion_and_demotion
    (cg : Z -> GetClientResult) (client : Client) (c uid : Z)
    (old new : string) (w : World) :
  _handle_promotion_demotion client c uid old new w =
    (Return tt,
     after w
       (if is_promoted old new || is_demoted old new then
          [if (uid =? my_id client) && is_promoted old new then
             Log INFO "Bot promoted in %s. Reloading admin cache." [AInt c]
           else
             Log INFO "User %s was %s in %s."
               [AInt uid;
                AStr (if is_promoted old new then "promoted" else "demoted");
                AInt c];
           LoadAdminCache c true]
        else []))
  /\ (is_valid_supergroup c = true ->
      uid = my_id client ->
      uid <> 0 ->
      snd (chat_member cg client
             {| chat_id := c; user_id := uid;
                old_status := chatMemberStatusMember;
                new_status := chatMemberStatusAdministrator |}
             (snd (chat_member cg client
                     {| chat_id := c; user_id := uid;
                        old_status := chatMemberStatusAdministrator;
                        new_status := chatMemberStatusMember |} w))) =
      after w
        [DbAddChat c;
         Log INFO "User %s was %s in %s." [AInt uid; AStr "demoted"; AInt c];
         LoadAdminCache c true;
         DbAddChat c;
         Log INFO "Bot promoted in %s. Reloading admin cache." [AInt c];
         LoadAdminCache c true]).
Proof.
  split.
  - unfold_handlers.
    destruct (is_promoted old new || is_demoted old new); simpl;
      [| now rewrite after_nil].
    destruct ((uid =? my_id client) && is_promoted old new); close_world.
  - intros Hv Hme Hu. apply Z.eqb_neq in Hu.
    rewrite !chat_member_supergroup by assumption. simpl. rewrite Hu.
    unfold_handlers. simpl. rewrite <- Hme, Z.eqb_refl. simpl. close_world.
Qed.

(** The bot is demoted, then promoted: two reloads. *)
Lemma reload_on_every_promotion_and_demotion_witness :
  (is_valid_supergroup Ex.supergroup = true /\ 777 = my_id (Ex.bot 100) /\ 777 <> 0)
  /\ calls (trace (snd (chat_member Ex.assistant (Ex.bot 100)
             (Ex.upd Ex.supergroup 777 chatMemberStatusMember chatMemberStatusAdministrator)
             (snd (chat_member Ex.assistant (Ex.bot 100)
                     (Ex.upd Ex.supergroup 777 chatMemberStatusAdministrator
                        chatMemberStatusMember) Ex.w0))))) =
     [DbAddChat Ex.supergroup; LoadAdminCache Ex.supergroup true;
      DbAddChat Ex.supergroup; LoadAdminCache Ex.supergroup true].
Proof.
  split; [split; [reflexivity | split; [reflexivity | lia]] |].
  unfold Ex.upd.
  rewrite (proj2 (reload_on_every_promotion_and_demotion Ex.assistant (Ex.bot 100)
                    Ex.supergroup 777 chatMemberStatusLeft chatMemberStatusLeft Ex.w0)
             eq_refl eq_refl ltac:(lia)).
  reflexivity.
Defined.

(** Claim C3 fails as stated: the promotion of user 42, who is not the bot,
    reloads the admin list; so does the demotion of the bot; and the
    demotion of the bot followed by its promotion reloads it twice. *)
Lemma reload_not_only_on_self_promotion :
  (42 <> my_id (Ex.bot 100) /\
   In (LoadAdminCache Ex.supergroup true)
      (trace (snd (chat_member Ex.assistant (Ex.bot 100)
                     (Ex.upd Ex.supergroup 42 chatMemberStatusMember
                        chatMemberStatusAdministrator) Ex.w0))))
  /\
  In (LoadAdminCache Ex.supergroup true)
     (trace (snd (chat_member Ex.assistant (Ex.bot 100)
                    (Ex.upd Ex.supergroup 777 chatMemberStatusAdministrator
                       chatMemberStatusMember) Ex.w0)))
  /\
  List.length
    (List.filter
       (fun e => match e with LoadAdminCache _ true => true | _ => false end)
       (trace (snd (chat_member Ex.assistant (Ex.bot 100)
          (Ex.upd Ex.supergroup 777 chatMemberStatusMember chatMemberStatusAdministrator)
          (snd (chat_member Ex.assistant (Ex.bot 100)
                  (Ex.upd Ex.supergroup 777 chatMemberStatusAdministrator
                     chatMemberStatusMember) Ex.w0)))))) = 2%nat.
Proof.
  repeat split.
  - vm_compute. discriminate.
  - vm_compute. tauto.
  - vm_compute. tauto.
Qed.

(** * Bans, leaves and the status cache *)

(** Claim C4.  Whatever the old status, a transition whose new status is
    [Banned] goes to the ban handler: the two rules written before the ban
    rule cannot take it.  When the subject is the bot identity of the chat,
    the cache entry of (chat, bot) then holds [Banned]. *)
Theorem ban_from_any_status
    (cg : Z -> GetClientResult) (client : Client) (c uid : Z)
    (old : string) (w : World) :
  _handle_status_changes cg client c uid old chatMemberStatusBanned =
    _handle_ban cg c uid
  /\ (cg c = Assistant uid ->
      _handle_status_changes cg client c uid old chatMemberStatusBanned w =
        (Return tt,
         cached (after w [Log INFO "User %s was banned in %s." [AInt uid; AInt c];
                          GetClient c])
                (status_key c uid) chatMemberStatusBanned)
      /\ user_status_cache
           (snd (_handle_status_changes cg client c uid old chatMemberStatusBanned w))
           !! status_key c uid = Some chatMemberStatusBanned).
Proof.
  split; [apply dispatch_ban |].
  intros Hself.
  assert (_handle_status_changes cg client c uid old chatMemberStatusBanned w =
     (Return tt,
      cached (after w [Log INFO "User %s was banned in %s." [AInt uid; AInt c];
                       GetClient c])
             (status_key c uid) chatMemberStatusBanned)) as Hrun.
  { rewrite dispatch_ban. unfold _handle_ban, LOGGER, bind, emit.
    rewrite (update_cache_self cg c uid _ _ Hself). close_world. }
  split; [exact Hrun |].
  rewrite Hrun. simpl. apply lookup_insert_eq.
Qed.

(** The assistant 777 is banned from a chat it had left. *)
Lemma ban_from_any_status_witness :
  Ex.assistant Ex.supergroup = Assistant 777
  /\ user_status_cache
       (snd (_handle_status_changes Ex.assistant (Ex.bot 100) Ex.supergroup 777
               chatMemberStatusLeft chatMemberStatusBanned Ex.w0))
       !! status_key Ex.supergroup 777 = Some chatMemberStatusBanned.
Proof.
  split; [reflexivity |].
  apply (proj2 (ban_from_any_status Ex.assistant (Ex.bot 100) Ex.supergroup 777
                  chatMemberStatusLeft Ex.w0) eq_refl).
Defined.

(** Claim C5.  In a supergroup, when the bot identity of the chat goes from
    member or administrator to left, the update goes to the leave handler
    and the cache entry of (chat, bot) is set to [Left]; the outcome is a
    function of the update and of the cache it started from. *)
Theorem self_leave_sets_cache_left
    (cg : Z -> GetClientResult) (client : Client) (u : UpdateChatMember) (w : World) :
  is_valid_supergroup (chat_id u) = true ->
  user_id u <> 0 ->
  cg (chat_id u) = Assistant (user_id u) ->
  old_status u = chatMemberStatusMember \/ old_status u = chatMemberStatusAdministrator ->
  new_status u = chatMemberStatusLeft ->
  _handle_status_changes cg client (chat_id u) (user_id u) (old_status u) (new_status u) =
    _handle_leave_or_kick cg (chat_id u) (user_id u)
  /\ chat_member cg client u w =
     (Return tt,
      cached (after w [DbAddChat (chat_id u);
                       Log INFO "User %s left or was kicked from %s."
                         [AInt (user_id u); AInt (chat_id u)];
                       GetClient (chat_id u)])
             (status_key (chat_id u) (user_id u)) chatMemberStatusLeft)
  /\ user_status_cache (snd (chat_member cg client u w))
       !! status_key (chat_id u) (user_id u) = Some chatMemberStatusLeft.
Proof.
  intros Hv Hu Hself Hold Hnew.
  pose proof (dispatch_leave_or_kick cg client (chat_id u) (user_id u) _ _ Hold Hnew)
    as Hd.
  split; [exact Hd |].
  assert (chat_member cg client u w =
     (Return tt,
      cached (after w [DbAddChat (chat_id u);
                       Log INFO "User %s left or was kicked from %s."
                         [AInt (user_id u); AInt (chat_id u)];
                       GetClient (chat_id u)])
             (status_key (chat_id u) (user_id u)) chatMemberStatusLeft)) as Hrun.
  { rewrite chat_member_supergroup by assumption.
    apply Z.eqb_neq in Hu. rewrite Hu, Hd.
    unfold _handle_leave_or_kick, LOGGER, bind, emit.
    rewrite (update_cache_self cg _ _ _ _ Hself). close_world. }
  split; [exact Hrun |].
  rewrite Hrun. simpl. apply lookup_insert_eq.
Qed.

(** The assistant 777 leaves a supergroup. *)
Lemma self_leave_sets_cache_left_witness :
  (is_valid_supergroup Ex.supergroup = true /\ 777 <> 0 /\
   Ex.assistant Ex.supergroup = Assistant 777)
  /\ user_status_cache
       (snd (chat_member Ex.assistant (Ex.bot 100)
               (Ex.upd Ex.supergroup 777 chatMemberStatusMember chatMemberStatusLeft)
               Ex.w0))
       !! status_key Ex.supergroup 777 = Some chatMemberStatusLeft.
Proof.
  split; [split; [reflexivity | split; [lia | reflexivity]] |].
  apply (self_leave_sets_cache_left Ex.assistant (Ex.bot 100)
           (Ex.upd Ex.supergroup 777 chatMemberStatusMember chatMemberStatusLeft) Ex.w0);
    [reflexivity | simpl; lia | reflexivity | left; reflexivity | reflexivity].
Defined.

(** * The bot joins a chat *)

Section SelfJoin.

Variable cg : Z -> GetClientResult.
Variable client : Client.
Variable u : UpdateChatMember.

Hypothesis Hvalid : is_valid_supergroup (chat_id u) = true.
Hypothesis Hself : user_id u = my_id client.
Hypothesis Hnonzero : user_id u <> 0.
Hypothesis Hold : old_status u = chatMemberStatusLeft.
Hypothesis Hnew :
  new_status u = chatMemberStatusMember \/ new_status u = chatMemberStatusAdministrator.

(** A self-join runs the check between recording the chat and the line
    that logs the join; an exception of the check ends in the handler's
    error line. *)
Lemma chat_member_self_join (w : World) :
  chat_member cg client u w =
    match handle_bot_join client (chat_id u) (after w [DbAddChat (chat_id u)]) with
    | (Return _, w') =>
        (Return tt,
         after w' [Log INFO "User %s joined the chat %s."
                     [AInt (user_id u); AInt (chat_id u)]])
    | (Raise e, w') =>
        (Return tt,
         after w' [Log ERROR "Error processing chat member update in %s: %s"
                     [AInt (chat_id u); AExn e]])
    end.
Proof.
  rewrite chat_member_supergroup by assumption.
  apply Z.eqb_neq in Hnonzero. rewrite Hnonzero.
  rewrite (dispatch_join cg client _ _ _ _ Hold Hnew).
  unfold _handle_join, bind, LOGGER, emit. rewrite Hself, Z.eqb_refl.
  destruct (handle_bot_join client (chat_id u) (after w [DbAddChat (chat_id u)]))
    as [[[]|e] w']; reflexivity.
Qed.

Lemma self_join_sufficient (n member_count : Z) (w : World) :
  Py.int (Py.slice_from 4 (Py.str (chat_id u))) = Some n ->
  supergroup_full_info client n = SupergroupFullInfo member_count ->
  50 <= member_count ->
  chat_member cg client u w =
    (Return tt,
     after w [DbAddChat (chat_id u);
              Log INFO "Bot joined the chat %s." [AInt (chat_id u)];
              GetSupergroupFullInfo n;
              Log INFO "User %s joined the chat %s."
                [AInt (user_id u); AInt (chat_id u)]]).
Proof.
  intros Hn Hi Hm. rewrite chat_member_self_join.
  rewrite (handle_bot_join_sufficient client _ n member_count _ Hvalid Hn Hi Hm).
  now rewrite !after_after.
Qed.

Lemma self_join_too_small (n member_count : Z) (w : World) :
  Py.int (Py.slice_from 4 (Py.str (chat_id u))) = Some n ->
  supergroup_full_info client n = SupergroupFullInfo member_count ->
  member_count < 50 ->
  chat_member cg client u w =
    (Return tt,
     after w [DbAddChat (chat_id u);
              Log INFO "Bot joined the chat %s." [AInt (chat_id u)];
              GetSupergroupFullInfo n;
              SendTextMessage n (too_few_members_text member_count) (Some SupportButton);
              Sleep 1;
              LeaveChat n;
              DbRemoveChat n;
              Log INFO "User %s joined the chat %s."
                [AInt (user_id u); AInt (chat_id u)]]).
Proof.
  intros Hn Hi Hm. rewrite chat_member_self_join.
  rewrite (handle_bot_join_too_small client _ n member_count _ Hvalid Hn Hi Hm).
  now rewrite !after_after.
Qed.

Lemma self_join_lookup_failed (n : Z) (w : World) :
  Py.int (Py.slice_from 4 (Py.str (chat_id u))) = Some n ->
  supergroup_full_info client n = SupergroupFullInfoError ->
  chat_member cg client u w =
    (Return tt,
     after w [DbAddChat (chat_id u);
              Log INFO "Bot joined the chat %s." [AInt (chat_id u)];
              GetSupergroupFullInfo n;
              Log WARNING "Failed to get supergroup info for %s" [AInt n];
              Log INFO "User %s joined the chat %s."
                [AInt (user_id u); AInt (chat_id u)]]).
Proof.
  intros Hn Hi. rewrite chat_member_self_join.
  rewrite (handle_bot_join_lookup_failed client _ n _ Hvalid Hn Hi).
  now rewrite !after_after.
Qed.

Lemma self_join_value_error (w : World) :
  Py.int (Py.slice_from 4 (Py.str (chat_id u))) = None ->
  chat_member cg client u w =
    (Return tt,
     after w [DbAddChat (chat_id u);
              Log INFO "Bot joined the chat %s." [AInt (chat_id u)];
              Log ERROR "Error processing chat member update in %s: %s"
                [AInt (chat_id u); AExn ValueError]]).
Proof.
  intros Hn. rewrite chat_member_self_join.
  rewrite (handle_bot_join_value_error client _ _ Hvalid Hn).
  now rewrite !after_after.
Qed.

End SelfJoin.

(** Claim C6.  A join of the bot itself, from left to member or administrator,
    into a supergroup that the lookup reports with at least 50 members goes
    to the join handler and has no kick: after the chat is recorded the
    lookup is the only call; no notice, no leaving, no record removed, and
    the cache is as it was. *)
Theorem self_join_large_group_accepted
    (cg : Z -> GetClientResult) (client : Client) (u : UpdateChatMember)
    (n member_count : Z) (w : World) :
  is_valid_supergroup (chat_id u) = true ->
  user_id u = my_id client ->
  user_id u <> 0 ->
  old_status u = chatMemberStatusLeft ->
  new_status u = chatMemberStatusMember \/ new_status u = chatMemberStatusAdministrator ->
  Py.int (Py.slice_from 4 (Py.str (chat_id u))) = Some n ->
  supergroup_full_info client n = SupergroupFullInfo member_count ->
  50 <= member_count ->
  _handle_status_changes cg client (chat_id u) (user_id u) (old_status u) (new_status u) =
    _handle_join client (chat_id u) (user_id u)
  /\ chat_member cg client u w =
     (Return tt,
      after w [DbAddChat (chat_id u);
               Log INFO "Bot joined the chat %s." [AInt (chat_id u)];
               GetSupergroupFullInfo n;
               Log INFO "User %s joined the chat %s."
                 [AInt (user_id u); AInt (chat_id u)]])
  /\ user_status_cache (snd (chat_member cg client u w)) = user_status_cache w.
Proof.
  intros Hv Hself Hu Hold Hnew Hn Hi Hm.
  split; [now apply dispatch_join |].
  pose proof (self_join_sufficient cg client u Hv Hself Hu Hold Hnew n member_count w
                Hn Hi Hm) as Hrun.
  split; [exact Hrun | now rewrite Hrun].
Qed.

(** The bot joins a supergroup of exactly 50 members. *)
Lemma self_join_large_group_accepted_witness :
  (is_valid_supergroup Ex.supergroup = true /\ 777 = my_id (Ex.bot 50) /\ 777 <> 0 /\
   Py.int (Py.slice_from 4 (Py.str Ex.supergroup)) = Some 1234567890 /\
   supergroup_full_info (Ex.bot 50) 1234567890 = SupergroupFullInfo 50 /\ 50 <= 50)
  /\ calls (trace (snd (chat_member Ex.assistant (Ex.bot 50)
                          (Ex.upd Ex.supergroup 777 chatMemberStatusLeft
                             chatMemberStatusAdministrator) Ex.w0))) =
     [DbAddChat Ex.supergroup; GetSupergroupFullInfo 1234567890].
Proof.
  split.
  - split; [reflexivity |]. split; [reflexivity |]. split; [lia |].
    split; [reflexivity |]. split; [reflexivity | lia].
  - rewrite (proj1 (proj2 (self_join_large_group_accepted Ex.assistant (Ex.bot 50)
               (Ex.upd Ex.supergroup 777 chatMemberStatusLeft
                  chatMemberStatusAdministrator)
               1234567890 50 Ex.w0 eq_refl eq_refl ltac:(simpl; lia) eq_refl
               (or_intror eq_refl) eq_refl eq_refl ltac:(lia)))).
    reflexivity.
Defined.

(** Claim C7, on the code.  The bot joins the supergroup -1001234567890, which
    the lookup reports with 49 members.  The kick runs, and all of it is
    addressed to 1234567890, the id with its prefix cut off: the notice is
    sent there, that chat is left, that record is removed.  The chat the
    bot joined gets no notice, is not left, and keeps the record written
    at the start of the update. *)
Theorem small_group_kick_misses_the_chat :
  chat_member Ex.assistant (Ex.bot 49)
    (Ex.upd Ex.supergroup 777 chatMemberStatusLeft chatMemberStatusMember) Ex.w0 =
    (Return tt,
     after Ex.w0
       [DbAddChat (-1001234567890);
        Log INFO "Bot joined the chat %s." [AInt (-1001234567890)];
        GetSupergroupFullInfo 1234567890;
        SendTextMessage 1234567890 (too_few_members_text 49) (Some SupportButton);
        Sleep 1;
        LeaveChat 1234567890;
        DbRemoveChat 1234567890;
        Log INFO "User %s joined the chat %s." [AInt 777; AInt (-1001234567890)]])
  /\ ~ In (LeaveChat Ex.supergroup)
       (trace (snd (chat_member Ex.assistant (Ex.bot 49)
                      (Ex.upd Ex.supergroup 777 chatMemberStatusLeft
                         chatMemberStatusMember) Ex.w0)))
  /\ ~ In (DbRemoveChat Ex.supergroup)
       (trace (snd (chat_member Ex.assistant (Ex.bot 49)
                      (Ex.upd Ex.supergroup 777 chatMemberStatusLeft
                         chatMemberStatusMember) Ex.w0))).
Proof.
  split; [reflexivity |].
  split; vm_compute; intros H; decompose [or] H; discriminate || assumption.
Qed.

(** Claim C8.  When the lookup of the bot-join check comes back as an error,
    the check logs a warning and returns normally: no notice, no leaving,
    no record removed, the cache as it was; the update ends with the join
    line, not with the handler's error line. *)
Theorem lookup_failure_stops_check
    (cg : Z -> GetClientResult) (client : Client) (u : UpdateChatMember)
    (n : Z) (w : World) :
  is_valid_supergroup (chat_id u) = true ->
  user_id u = my_id client ->
  user_id u <> 0 ->
  old_status u = chatMemberStatusLeft ->
  new_status u = chatMemberStatusMember \/ new_status u = chatMemberStatusAdministrator ->
  Py.int (Py.slice_from 4 (Py.str (chat_id u))) = Some n ->
  supergroup_full_info client n = SupergroupFullInfoError ->
  handle_bot_join client (chat_id u) w =
    (Return tt,
     after w [Log INFO "Bot joined the chat %s." [AInt (chat_id u)];
              GetSupergroupFullInfo n;
              Log WARNING "Failed to get supergroup info for %s" [AInt n]])
  /\ chat_member cg client u w =
     (Return tt,
      after w [DbAddChat (chat_id u);
               Log INFO "Bot joined the chat %s." [AInt (chat_id u)];
               GetSupergroupFullInfo n;
               Log WARNING "Failed to get supergroup info for %s" [AInt n];
               Log INFO "User %s joined the chat %s."
                 [AInt (user_id u); AInt (chat_id u)]])
  /\ user_status_cache (snd (chat_member cg client u w)) = user_status_cache w.
Proof.
  intros Hv Hself Hu Hold Hnew Hn Hi.
  split; [now apply handle_bot_join_lookup_failed |].
  pose proof (self_join_lookup_failed cg client u Hv Hself Hu Hold Hnew n w Hn Hi)
    as Hrun.
  split; [exact Hrun | now rewrite Hrun].
Qed.

(** The bot joins a supergroup while lookups fail. *)
Lemma lookup_failure_stops_check_witness :
  (is_valid_supergroup Ex.supergroup = true /\ 777 = my_id Ex.bot_offline /\ 777 <> 0 /\
   Py.int (Py.slice_from 4 (Py.str Ex.supergroup)) = Some 1234567890 /\
   supergroup_full_info Ex.bot_offline 1234567890 = SupergroupFullInfoError)
  /\ calls (trace (snd (chat_member Ex.assistant Ex.bot_offline
                          (Ex.upd Ex.supergroup 777 chatMemberStatusLeft
                             chatMemberStatusMember) Ex.w0))) =
     [DbAddChat Ex.supergroup; GetSupergroupFullInfo 1234567890].
Proof.
  split.
  - split; [reflexivity |]. split; [reflexivity |]. split; [lia |].
    split; reflexivity.
  - rewrite (proj1 (proj2 (lookup_failure_stops_check Ex.assistant Ex.bot_offline
               (Ex.upd Ex.supergroup 777 chatMemberStatusLeft chatMemberStatusMember)
               1234567890 Ex.w0 eq_refl eq_refl ltac:(simpl; lia) eq_refl
               (or_introl eq_refl) eq_refl eq_refl))).
    reflexivity.
Defined.

(** * Replaying an update *)

Section CacheEffect.

Variable cg : Z -> GetClientResult.
Variable client : Client.

Lemma handle_bot_join_keeps_cache (c : Z) (w : World) :
  user_status_cache (snd (handle_bot_join client c w)) = user_status_cache w.
Proof.
  unfold_handlers.
  destruct (Py.startswith (Py.str c) "-100");
    [destruct (Py.int (Py.slice_from 4 (Py.str c))) |];
    cbn [fst snd user_status_cache]; try reflexivity;
    match goal with
    | |- context [supergroup_full_info client ?n] =>
        destruct (supergroup_full_info client n) as [mc|];
        [destruct (mc <? 50) |]; reflexivity
    end.
Qed.

Lemma handle_join_keeps_cache (c uid : Z) (w : World) :
  user_status_cache (snd (_handle_join client c uid w)) = user_status_cache w.
Proof.
  unfold _handle_join, bind, ret, LOGGER, emit.
  destruct (uid =? my_id client); [| reflexivity].
  pose proof (handle_bot_join_keeps_cache c w) as H.
  destruct (handle_bot_join client c w) as [[[]|e] w']; exact H.
Qed.

Lemma handle_promotion_demotion_keeps_cache (c uid : Z) (old new : string) (w : World) :
  user_status_cache (snd (_handle_promotion_demotion client c uid old new w)) =
  user_status_cache w.
Proof.
  unfold_handlers.
  destruct (is_promoted old new || is_demoted old new); [| reflexivity].
  destruct ((uid =? my_id client) && is_promoted old new); reflexivity.
Qed.

Lemma update_cache_writes_at_most_one (c uid : Z) (status : string) (evs : list Event) :
  writes_at_most_one_entry
    (fun w => snd (_update_user_status_cache cg c uid status (after w evs))).
Proof.
  assert (cg c = Assistant uid \/ cg c <> Assistant uid) as [Heq | Hne].
  { destruct (cg c) as [me| |]; [| right; discriminate ..].
    destruct (Z.eq_dec me uid) as [-> | Hne]; [now left | right; congruence]. }
  - right. exists (status_key c uid), status. intros w.
    now rewrite (update_cache_self cg c uid status _ Heq).
  - left. intros w. now rewrite (update_cache_other cg c uid status _ Hne).
Qed.

Lemma handle_status_changes_writes_at_most_one (c uid : Z) (old new : string) :
  writes_at_most_one_entry
    (fun w => snd (_handle_status_changes cg client c uid old new w)).
Proof.
  unfold _handle_status_changes.
  destruct (_ && _).
  { left. intros w. apply handle_join_keeps_cache. }
  destruct (_ && _).
  { apply (update_cache_writes_at_most_one c uid chatMemberStatusLeft
             [Log INFO "User %s left or was kicked from %s." [AInt uid; AInt c]]). }
  destruct (String.eqb new chatMemberStatusBanned).
  { apply (update_cache_writes_at_most_one c uid chatMemberStatusBanned
             [Log INFO "User %s was banned in %s." [AInt uid; AInt c]]). }
  destruct (_ && _).
  { apply (update_cache_writes_at_most_one c uid chatMemberStatusLeft
             [Log INFO "User %s was unbanned in %s." [AInt uid; AInt c]]). }
  left. intros w. apply handle_promotion_demotion_keeps_cache.
Qed.

Lemma chat_member_writes_at_most_one (u : UpdateChatMember) :
  writes_at_most_one_entry (fun w => snd (chat_member cg client u w)).
Proof.
  destruct (is_valid_supergroup (chat_id u)) eqn:Hv.
  - destruct (Z.eqb_spec (user_id u) 0) as [Hz | Hnz].
    + left. intros w. rewrite chat_member_supergroup by assumption.
      rewrite Hz. reflexivity.
    + assert (forall w,
        user_status_cache (snd (chat_member cg client u w)) =
        user_status_cache
          (snd (_handle_status_changes cg client (chat_id u) (user_id u)
                  (old_status u) (new_status u) (after w [DbAddChat (chat_id u)]))))
        as Hstep.
      { intros w. rewrite chat_member_supergroup by assumption.
        apply Z.eqb_neq in Hnz. rewrite Hnz.
        destruct (_handle_status_changes _ _ _ _ _ _ _) as [[[]|e] w']; reflexivity. }
      destruct (handle_status_changes_writes_at_most_one (chat_id u) (user_id u)
                  (old_status u) (new_status u)) as [Hkeep | (k & s & Hset)].
      * left. intros w. now rewrite Hstep, Hkeep.
      * right. exists k, s. intros w. now rewrite Hstep, Hset.
  - left. intros w.
    destruct (Z.gtb_spec (chat_id u) 0).
    + now rewrite chat_member_positive.
    + now rewrite chat_member_rejected.
Qed.

End CacheEffect.

(** Claim C9.  Processing an update and then the same update again leaves the
    status cache as processing it once does. *)
Theorem replay_keeps_cache
    (cg : Z -> GetClientResult) (client : Client) (u : UpdateChatMember) (w : World) :
  user_status_cache
    (snd (chat_member cg client u (snd (chat_member cg client u w)))) =
  user_status_cache (snd (chat_member cg client u w)).
Proof.
  destruct (chat_member_writes_at_most_one cg client u) as [Hkeep | (k & s & Hset)].
  - now rewrite !Hkeep.
  - rewrite !Hset. apply insert_insert_eq.
Qed.

(** * The id the bot-join check works with *)

(** Claim C10.  When the bot joins a supergroup, the update first records the
    chat under its full id; every call the check then makes, the lookup,
    the notice, the leaving and the record removal, is addressed to the
    integer read from the decimal text of the id without its first four
    characters, which is not the full id.  So when the group is too small,
    the record removed is not the one that was recorded. *)
Theorem bot_join_calls_use_stripped_id
    (cg : Z -> GetClientResult) (client : Client) (u : UpdateChatMember) (w : World) :
  is_valid_supergroup (chat_id u) = true ->
  user_id u = my_id client ->
  user_id u <> 0 ->
  old_status u = chatMemberStatusLeft ->
  new_status u = chatMemberStatusMember \/ new_status u = chatMemberStatusAdministrator ->
  exists evs,
    chat_member cg client u w = (Return tt, after w (DbAddChat (chat_id u) :: evs))
    /\ (forall e c', In e evs -> bot_join_target e = Some c' ->
          Py.int (Py.slice_from 4 (Py.str (chat_id u))) = Some c' /\ c' <> chat_id u)
    /\ (forall n member_count,
          Py.int (Py.slice_from 4 (Py.str (chat_id u))) = Some n ->
          supergroup_full_info client n = SupergroupFullInfo member_count ->
          member_count < 50 ->
          In (DbRemoveChat n) evs /\ n <> chat_id u).
Proof.
  intros Hv Hself Hu Hold Hnew.
  destruct (Py.int (Py.slice_from 4 (Py.str (chat_id u)))) as [n|] eqn:Hn.
  - pose proof (stripped_id_differs _ _ Hv Hn) as Hne.
    destruct (supergroup_full_info client n) as [mc|] eqn:Hi;
      [destruct (Z.ltb_spec mc 50) as [Hm | Hm] |].
    + eexists. split;
        [apply (self_join_too_small cg client u Hv Hself Hu Hold Hnew n mc w Hn Hi Hm) |].
      split.
      * intros e c' Hin Ht. simpl in Hin.
        decompose [or] Hin; subst; simpl in Ht; try discriminate;
          try contradiction; injection Ht as <-; now split.
      * intros n' mc' [= <-] _ _. split; [simpl; tauto | exact Hne].
    + eexists. split;
        [apply (self_join_sufficient cg client u Hv Hself Hu Hold Hnew n mc w Hn Hi Hm) |].
      split.
      * intros e c' Hin Ht. simpl in Hin.
        decompose [or] Hin; subst; simpl in Ht; try discriminate;
          try contradiction; injection Ht as <-; now split.
      * intros n' mc' [= <-] Hi' Hm'. rewrite Hi in Hi'. injection Hi' as <-. lia.
    + eexists. split;
        [apply (self_join_lookup_failed cg client u Hv Hself Hu Hold Hnew n w Hn Hi) |].
      split.
      * intros e c' Hin Ht. simpl in Hin.
        decompose [or] Hin; subst; simpl in Ht; try discriminate;
          try contradiction; injection Ht as <-; now split.
      * intros n' mc' [= <-] Hi' _. rewrite Hi in Hi'. discriminate.
  - eexists. split;
      [apply (self_join_value_error cg client u Hv Hself Hu Hold Hnew w Hn) |].
    split.
    + intros e c' Hin Ht. simpl in Hin.
      decompose [or] Hin; subst; simpl in Ht; try discriminate; contradiction.
    + intros n' mc' [=].
Qed.

(** The bot joins a supergroup of 49 members. *)
Lemma bot_join_calls_use_stripped_id_witness :
  (is_valid_supergroup Ex.supergroup = true /\ 777 = my_id (Ex.bot 49) /\ 777 <> 0)
  /\ exists evs,
       chat_member Ex.assistant (Ex.bot 49)
         (Ex.upd Ex.supergroup 777 chatMemberStatusLeft chatMemberStatusMember) Ex.w0 =
       (Return tt, after Ex.w0 (DbAddChat Ex.supergroup :: evs))
       /\ In (DbRemoveChat 1234567890) evs
       /\ 1234567890 <> Ex.supergroup.
Proof.
  split; [split; [reflexivity | split; [reflexivity | lia]] |].
  destruct (bot_join_calls_use_stripped_id Ex.assistant (Ex.bot 49)
              (Ex.upd Ex.supergroup 777 chatMemberStatusLeft chatMemberStatusMember)
              Ex.w0 eq_refl eq_refl ltac:(simpl; lia) eq_refl (or_introl eq_refl))
    as (evs & Hrun & _ & Hkick).
  exists evs. split; [exact Hrun |].
  apply (Hkick 1234567890 49); [reflexivity | reflexivity | lia].
Defined.

(** * The identifier convention, numerically *)

(** The value of a digit string read after an accumulator. *)
Lemma digits_value_acc (d : uint) (acc : positive) :
  N.pos (Pos.of_uint_acc d acc) =
  (N.pos acc * 10 ^ N.of_nat (nb_digits d) + Pos.of_uint d)%N.
Proof.
  revert acc.
  induction d; intros acc;
    cbn [Pos.of_uint_acc Pos.of_uint nb_digits];
    rewrite ?Nat2N.inj_succ, ?N.pow_succ_r', ?IHd;
    repeat match goal with
      | |- context [N.pos (Pos.add ?a ?b)] =>
          change (N.pos (Pos.add a b)) with (N.pos a + N.pos b)%N
      | |- context [N.pos (Pos.mul ?a ?b)] =>
          change (N.pos (Pos.mul a b)) with (N.pos a * N.pos b)%N
      end;
    try ring.
  simpl. lia.
Qed.

Lemma digits_value_bound (d : uint) :
  (Pos.of_uint d < 10 ^ N.of_nat (nb_digits d))%N.
Proof.
  induction d;
    cbn [Pos.of_uint nb_digits];
    rewrite ?Nat2N.inj_succ, ?N.pow_succ_r', ?digits_value_acc;
    nia.
Qed.

(** Every number below [10^k] has a reading on [k] digits, zeros in
    front. *)
Lemma padded_digits (k : nat) (r : N) :
  (r < 10 ^ N.of_nat k)%N ->
  exists d, nb_digits d = k /\ Pos.of_uint d = r.
Proof.
  revert r. induction k as [|k IH]; intros r Hr.
  - exists Nil. simpl in *. split; [reflexivity | lia].
  - rewrite Nat2N.inj_succ, N.pow_succ_r' in Hr.
    set (P := (10 ^ N.of_nat k)%N) in *.
    assert (0 < P)%N as HP by (apply N.neq_0_lt_0, N.pow_nonzero; lia).
    destruct (IH (r mod P)%N) as (d & Hk & Hd); [apply N.mod_lt; lia |].
    pose proof (N.div_mod r P ltac:(lia)) as Hdm.
    assert (r / P < 10)%N as Hq by (apply N.Div0.div_lt_upper_bound; lia).
    assert (forall q, (r / P = q)%N -> (r = q * P + Pos.of_uint d)%N) as Hval
      by (intros q <-; lia).
    destruct (r / P)%N as [|q] eqn:Eq.
    { exists (D0 d). simpl. split; [now rewrite Hk | rewrite (Hval _ eq_refl); lia]. }
    assert (q = 1 \/ q = 2 \/ q = 3 \/ q = 4 \/ q = 5 \/ q = 6 \/ q = 7 \/ q = 8 \/ q = 9)%positive
      as Hcases by lia.
    decompose [or] Hcases; subst q;
      [exists (D1 d) | exists (D2 d) | exists (D3 d) | exists (D4 d) | exists (D5 d)
      | exists (D6 d) | exists (D7 d) | exists (D8 d) | exists (D9 d)];
      (split; [simpl; now rewrite Hk |]);
      cbn [Pos.of_uint]; rewrite digits_value_acc, Hk; fold P;
      symmetry; apply (Hval _ eq_refl).
Qed.

(** The value of the digits of a supergroup id. *)
Lemma prefixed_digits_value (d : uint) :
  Z.of_int (Neg (D1 (D0 (D0 d)))) =
  - (100 * 10 ^ Z.of_nat (nb_digits d) + Z.of_uint d).
Proof.
  unfold Z.of_int, Z.of_uint. cbn [Pos.of_uint].
  rewrite digits_value_acc. cbn [nb_digits].
  rewrite !Nat2N.inj_succ, !N.pow_succ_r'.
  rewrite N2Z.inj_add, !N2Z.inj_mul, N2Z.inj_pow, nat_N_Z. simpl Z.of_N. lia.
Qed.

Lemma digits_value_range (d : uint) :
  0 <= Z.of_uint d < 10 ^ Z.of_nat (nb_digits d).
Proof.
  unfold Z.of_uint. split; [apply N2Z.is_nonneg |].
  pose proof (digits_value_bound d) as H.
  apply N2Z.inj_lt in H. now rewrite N2Z.inj_pow, nat_N_Z in H.
Qed.

(** The digits of a number written as [-(100 * 10^k + r)], [r < 10^k]. *)
Lemma prefixed_digits_exist (k : nat) (r : Z) :
  0 <= r < 10 ^ Z.of_nat k ->
  exists d, nb_digits d = k /\ Z.of_uint d = r /\
            Z.to_int (- (100 * 10 ^ Z.of_nat k + r)) = Neg (D1 (D0 (D0 d))).
Proof.
  intros Hr.
  destruct (padded_digits k (Z.to_N r)) as (d & Hk & Hd).
  { apply N2Z.inj_lt. rewrite N2Z.inj_pow, nat_N_Z, Z2N.id by lia. simpl Z.of_N. lia. }
  assert (Z.of_uint d = r) as Hv by (unfold Z.of_uint; rewrite Hd; apply Z2N.id; lia).
  exists d. split; [exact Hk |]. split; [exact Hv |].
  rewrite <- Hk, <- Hv, <- prefixed_digits_value.
  apply DecimalZ.to_of.
Qed.

Lemma prefixed_digits_valid (c : Z) (d : uint) :
  Z.to_int c = Neg (D1 (D0 (D0 d))) -> is_valid_supergroup c = true.
Proof.
  intros Hd. unfold is_valid_supergroup, Py.startswith, Py.str. rewrite Hd. simpl.
  now destruct (NilEmpty.string_of_uint d).
Qed.

(** Extra X1.  The convention, read on the number line: the ids taken for
    supergroups are the integers [c] with [-101 * 10^k < c <= -100 * 10^k]
    for some number [k] of digits after the prefix; [k = 0] gives -100
    itself. *)
Theorem supergroup_ids_are_intervals (c : Z) :
  is_valid_supergroup c = true <->
  exists k : nat, -101 * 10 ^ Z.of_nat k < c <= -100 * 10 ^ Z.of_nat k.
Proof.
  split.
  - intros Hv. destruct (valid_supergroup_digits c Hv) as [d Hd].
    exists (nb_digits d).
    rewrite <- (DecimalZ.of_to c), Hd, prefixed_digits_value.
    pose proof (digits_value_range d). lia.
  - intros [k Hk].
    destruct (prefixed_digits_exist k (- c - 100 * 10 ^ Z.of_nat k)) as (d & _ & _ & Hd);
      [lia |].
    replace (- (100 * 10 ^ Z.of_nat k + (- c - 100 * 10 ^ Z.of_nat k))) with c in Hd
      by lia.
    now apply prefixed_digits_valid with d.
Qed.

(** The id of a usual supergroup, ten digits after the prefix. *)
Lemma supergroup_ids_are_intervals_witness :
  (exists k : nat, -101 * 10 ^ Z.of_nat k < Ex.supergroup <= -100 * 10 ^ Z.of_nat k)
  /\ is_valid_supergroup Ex.supergroup = true.
Proof.
  assert (exists k : nat,
             -101 * 10 ^ Z.of_nat k < Ex.supergroup <= -100 * 10 ^ Z.of_nat k) as H.
  { exists 10%nat. unfold Ex.supergroup. simpl. lia. }
  split; [exact H |].
  exact (proj2 (supergroup_ids_are_intervals Ex.supergroup) H).
Defined.

(** Extra X2.  Cutting the prefix off undoes putting it on: the id the
    bot-join check computes from [c] is [n] exactly when [c] is
    [-(100 * 10^k + n)] for some [k >= 1] digits that can hold [n]; zeros
    in front of [n] are lost, the prefix alone ([k = 0]) has no value. *)
Theorem stripped_id_round_trip (c n : Z) :
  (is_valid_supergroup c = true /\ Py.int (Py.slice_from 4 (Py.str c)) = Some n)
  <->
  exists k : nat,
    (0 < k)%nat /\ 0 <= n < 10 ^ Z.of_nat k /\ c = - (100 * 10 ^ Z.of_nat k + n).
Proof.
  split.
  - intros [Hv Hn]. destruct (valid_supergroup_digits c Hv) as [d Hd].
    rewrite (stripped_digits c d Hd), int_of_digits in Hn.
    assert (d <> Nil /\ n = Z.of_uint d) as [Hnil ->]
      by (destruct d; (discriminate || (injection Hn as <-; split; congruence))).
    exists (nb_digits d). split; [| split].
    + destruct d; simpl; (congruence || lia).
    + apply digits_value_range.
    + now rewrite <- (DecimalZ.of_to c), Hd, prefixed_digits_value.
  - intros (k & Hk & Hn & ->).
    destruct (prefixed_digits_exist k n Hn) as (d & Hdk & Hdv & Hd).
    split.
    + now apply prefixed_digits_valid with d.
    + rewrite (stripped_digits _ d Hd), int_of_digits.
      destruct d; simpl in Hdk; [lia | now rewrite <- Hdv ..].
Qed.

(** The usual supergroup id, and one whose digits start with zeros. *)
Lemma stripped_id_round_trip_witness :
  (exists k : nat,
     (0 < k)%nat /\ 0 <= 12 < 10 ^ Z.of_nat k /\ -1000012 = - (100 * 10 ^ Z.of_nat k + 12))
  /\ is_valid_supergroup (-1000012) = true
  /\ Py.int (Py.slice_from 4 (Py.str (-1000012))) = Some 12.
Proof.
  assert (exists k : nat,
     (0 < k)%nat /\ 0 <= 12 < 10 ^ Z.of_nat k /\ -1000012 = - (100 * 10 ^ Z.of_nat k + 12))
    as H.
  { exists 4%nat. simpl. lia. }
  split; [exact H |].
  exact (proj2 (stripped_id_round_trip (-1000012) 12) H).
Defined.

(** ** When the bot-join check raises *)

Lemma handle_bot_join_returns (client : Client) (c : Z) (w : World) :
  is_valid_supergroup c = false \/
  (exists n, Py.int (Py.slice_from 4 (Py.str c)) = Some n) ->
  fst (handle_bot_join client c w) = Return tt.
Proof.
  unfold is_valid_supergroup. intros H. unfold_handlers.
  destruct (Py.startswith (Py.str c) "-100").
  - destruct H as [H | [n Hn]]; [discriminate |]. rewrite Hn.
    cbn [fst snd]. destruct (supergroup_full_info client n) as [mc|];
      [destruct (mc <? 50) |]; reflexivity.
  - cbn [fst snd]. destruct (supergroup_full_info client c) as [mc|];
      [destruct (mc <? 50) |]; reflexivity.
Qed.

Lemma bare_prefix_has_no_id (c : Z) :
  is_valid_supergroup c = true ->
  Py.int (Py.slice_from 4 (Py.str c)) = None ->
  c = -100.
Proof.
  intros Hv Hn. destruct (valid_supergroup_digits c Hv) as [d Hd].
  rewrite (stripped_digits c d Hd), int_of_digits in Hn.
  destruct d; try discriminate.
  apply DecimalZ.to_int_inj. rewrite Hd. reflexivity.
Qed.

(** Extra X3.  The bot-join check raises for one chat id only, -100, the
    prefix with nothing after it: there [int] is given the empty string.
    For every other id, supergroup or not, it returns. *)
Theorem bot_join_raises_only_for_bare_prefix (client : Client) (c : Z) (w : World) :
  fst (handle_bot_join client c w) = Raise ValueError <-> c = -100.
Proof.
  split.
  - intros Hr.
    destruct (is_valid_supergroup c) eqn:Hv.
    + destruct (Py.int (Py.slice_from 4 (Py.str c))) as [n|] eqn:Hn.
      * rewrite handle_bot_join_returns in Hr by (right; now exists n). discriminate.
      * now apply bare_prefix_has_no_id.
    + rewrite handle_bot_join_returns in Hr by now left. discriminate.
  - intros ->.
    now rewrite (handle_bot_join_value_error client (-100) w eq_refl eq_refl).
Qed.

(** The bare prefix raises. *)
Lemma bot_join_raises_only_for_bare_prefix_witness :
  fst (handle_bot_join (Ex.bot 100) (-100) Ex.w0) = Raise ValueError.
Proof.
  exact (proj2 (bot_join_raises_only_for_bare_prefix (Ex.bot 100) (-100) Ex.w0) eq_refl).
Defined.

(** * Which rule takes a transition *)

Lemma status_tags_distinct :
  chatMemberStatusLeft <> chatMemberStatusMember /\
  chatMemberStatusLeft <> chatMemberStatusAdministrator /\
  chatMemberStatusLeft <> chatMemberStatusBanned /\
  chatMemberStatusMember <> chatMemberStatusAdministrator /\
  chatMemberStatusMember <> chatMemberStatusBanned /\
  chatMemberStatusAdministrator <> chatMemberStatusBanned.
Proof. repeat split; discriminate. Qed.

Section Rules.

Variable cg : Z -> GetClientResult.
Variable client : Client.

Lemma dispatch_unban (c uid : Z) (old new : string) :
  old = chatMemberStatusBanned ->
  new = chatMemberStatusLeft ->
  _handle_status_changes cg client c uid old new = _handle_unban cg c uid.
Proof. intros -> ->. reflexivity. Qed.

(** The five rules, each with what is known when it is the one taken. *)
Lemma dispatch_cases (c uid : Z) (old new : string) :
  (old = chatMemberStatusLeft /\
   (new = chatMemberStatusMember \/ new = chatMemberStatusAdministrator) /\
   _handle_status_changes cg client c uid old new = _handle_join client c uid)
  \/
  ((old = chatMemberStatusMember \/ old = chatMemberStatusAdministrator) /\
   new = chatMemberStatusLeft /\
   _handle_status_changes cg client c uid old new = _handle_leave_or_kick cg c uid)
  \/
  (new = chatMemberStatusBanned /\
   _handle_status_changes cg client c uid old new = _handle_ban cg c uid)
  \/
  (old = chatMemberStatusBanned /\ new = chatMemberStatusLeft /\
   _handle_status_changes cg client c uid old new = _handle_unban cg c uid)
  \/
  (~ (old = chatMemberStatusLeft /\
      (new = chatMemberStatusMember \/ new = chatMemberStatusAdministrator)) /\
   ~ ((old = chatMemberStatusMember \/ old = chatMemberStatusAdministrator) /\
      new = chatMemberStatusLeft) /\
   new <> chatMemberStatusBanned /\
   ~ (old = chatMemberStatusBanned /\ new = chatMemberStatusLeft) /\
   _handle_status_changes cg client c uid old new =
     _handle_promotion_demotion client c uid old new).
Proof.
  unfold _handle_status_changes, Py.in_. cbn [existsb].
  destruct (String.eqb_spec old chatMemberStatusLeft) as [Hol | Hol];
  destruct (String.eqb_spec new chatMemberStatusMember) as [Hnm | Hnm];
  destruct (String.eqb_spec new chatMemberStatusAdministrator) as [Hna | Hna];
  destruct (String.eqb_spec old chatMemberStatusMember) as [Hom | Hom];
  destruct (String.eqb_spec old chatMemberStatusAdministrator) as [Hoa | Hoa];
  destruct (String.eqb_spec new chatMemberStatusLeft) as [Hnl | Hnl];
  destruct (String.eqb_spec new chatMemberStatusBanned) as [Hnb | Hnb];
  destruct (String.eqb_spec old chatMemberStatusBanned) as [Hob | Hob];
  cbn [andb orb];
  first
    [ left; solve [repeat split; first [assumption | reflexivity | tauto]]
    | right; left; solve [repeat split; first [assumption | reflexivity | tauto]]
    | right; right; left; solve [repeat split; first [assumption | reflexivity | tauto]]
    | right; right; right; left;
      solve [repeat split; first [assumption | reflexivity | tauto]]
    | right; right; right; right;
      solve [repeat split; first [assumption | reflexivity | tauto]] ].
Qed.

End Rules.

(** * What is written to the status cache *)

Section CacheWrites.

Variable cg : Z -> GetClientResult.
Variable client : Client.

Lemma assistant_or_not (c uid : Z) :
  cg c = Assistant uid \/ cg c <> Assistant uid.
Proof.
  destruct (cg c) as [me| |]; [| right; discriminate ..].
  destruct (Z.eq_dec me uid) as [-> | Hne]; [now left | right; congruence].
Qed.

(** The three handlers that reach the cache are one log line and the
    cache update. *)
Lemma leave_ban_unban_unfold (c uid : Z) (w : World) :
  _handle_leave_or_kick cg c uid w =
    _update_user_status_cache cg c uid chatMemberStatusLeft
      (after w [Log INFO "User %s left or was kicked from %s." [AInt uid; AInt c]])
  /\ _handle_ban cg c uid w =
    _update_user_status_cache cg c uid chatMemberStatusBanned
      (after w [Log INFO "User %s was banned in %s." [AInt uid; AInt c]])
  /\ _handle_unban cg c uid w =
    _update_user_status_cache cg c uid chatMemberStatusLeft
      (after w [Log INFO "User %s was unbanned in %s." [AInt uid; AInt c]]).
Proof. repeat split. Qed.

Lemma update_cache_result (c uid : Z) (status : string) (w : World) :
  (cg c = Assistant uid ->
   user_status_cache (snd (_update_user_status_cache cg c uid status w)) =
   <[status_key c uid := status]> (user_status_cache w))
  /\ (cg c <> Assistant uid ->
      user_status_cache (snd (_update_user_status_cache cg c uid status w)) =
      user_status_cache w).
Proof.
  split; intros H.
  - now rewrite (update_cache_self cg c uid status w H).
  - now rewrite (update_cache_other cg c uid status w H).
Qed.

(** In a supergroup, for a subject that is not zero, the cache after the
    update is the cache after the dispatch. *)
Lemma chat_member_cache_step (u : UpdateChatMember) (w : World) :
  is_valid_supergroup (chat_id u) = true ->
  user_id u <> 0 ->
  user_status_cache (snd (chat_member cg client u w)) =
  user_status_cache
    (snd (_handle_status_changes cg client (chat_id u) (user_id u)
            (old_status u) (new_status u) (after w [DbAddChat (chat_id u)]))).
Proof.
  intros Hv Hnz. rewrite chat_member_supergroup by assumption.
  apply Z.eqb_neq in Hnz. rewrite Hnz.
  destruct (_handle_status_changes _ _ _ _ _ _ _) as [[[]|e] w']; reflexivity.
Qed.

Lemma chat_member_cache_outside (u : UpdateChatMember) (w : World) :
  is_valid_supergroup (chat_id u) = false \/ user_id u = 0 ->
  user_status_cache (snd (chat_member cg client u w)) = user_status_cache w.
Proof.
  intros H. destruct (is_valid_supergroup (chat_id u)) eqn:Hv.
  - destruct H as [H | H]; [discriminate |].
    rewrite chat_member_supergroup by assumption. now rewrite H.
  - destruct (Z.gtb_spec (chat_id u) 0).
    + now rewrite chat_member_positive.
    + now rewrite chat_member_rejected.
Qed.

(** The cache after an update, rule by rule. *)
Lemma chat_member_cache_cases (u : UpdateChatMember) (w : World) :
  (writes_cache cg u /\
   user_status_cache (snd (chat_member cg client u w)) =
   <[status_key (chat_id u) (user_id u) := new_status u]> (user_status_cache w))
  \/
  (~ writes_cache cg u /\
   user_status_cache (snd (chat_member cg client u w)) = user_status_cache w).
Proof.
  unfold writes_cache, reaches_cache.
  destruct status_tags_distinct as (Hlm & Hla & Hlb & Hma & Hmb & Hab).
  destruct (is_valid_supergroup (chat_id u)) eqn:Hv;
    [| right; split; [intros (? & _); discriminate
                     | apply chat_member_cache_outside; now left]].
  destruct (Z.eq_dec (user_id u) 0) as [Hz | Hnz];
    [right; split; [tauto | apply chat_member_cache_outside; now right] |].
  rewrite (chat_member_cache_step u w Hv Hnz).
  set (w1 := after w [DbAddChat (chat_id u)]).
  destruct (leave_ban_unban_unfold (chat_id u) (user_id u) w1) as (Hl & Hb & Hu).
  destruct (assistant_or_not (chat_id u) (user_id u)) as [Ha | Ha];
  destruct (dispatch_cases cg client (chat_id u) (user_id u)
              (old_status u) (new_status u))
    as [(Ho & Hn & ->) | [(Ho & Hn & ->) | [(Hn & ->) | [(Ho & Hn & ->)
       | (N1 & N2 & N3 & N4 & ->)]]]];
    rewrite ?Hl, ?Hb, ?Hu.
  all: try (right; split;
            [ intuition congruence
            | first [ exact (handle_join_keeps_cache _ _ _ w1)
                    | exact (handle_promotion_demotion_keeps_cache _ _ _ _ _ w1)
                    | exact (proj2 (update_cache_result _ _ _ _) Ha) ] ]).
  all: left; rewrite Hn;
       (split; [| exact (proj1 (update_cache_result _ _ _ _) Ha)]);
       (split; [reflexivity |]); (split; [assumption |]); (split; [assumption |]);
       tauto.
Qed.

End CacheWrites.

(** Extra X5.  The status cache is written exactly when the update is for
    a supergroup, its subject is not zero and is the assistant of the
    chat, and the transition is a leave or kick, a ban or an unban.  The
    entry written is the one of (chat, subject) and the value is the new
    status of the update.  Every other update, joins and promotions among
    them, leaves the cache as it was. *)
Theorem cache_written_exactly_when
    (cg : Z -> GetClientResult) (client : Client) (u : UpdateChatMember) (w : World) :
  (writes_cache cg u ->
   user_status_cache (snd (chat_member cg client u w)) =
   <[status_key (chat_id u) (user_id u) := new_status u]> (user_status_cache w))
  /\ (~ writes_cache cg u ->
      user_status_cache (snd (chat_member cg client u w)) = user_status_cache w).
Proof.
  destruct (chat_member_cache_cases cg client u w) as [[Hw Hc] | [Hw Hc]];
    split; intros H; (exact Hc || contradiction).
Qed.

(** The assistant is banned: written.  The assistant joins: not written. *)
Lemma cache_written_exactly_when_witness :
  (writes_cache Ex.assistant
     (Ex.upd Ex.supergroup 777 chatMemberStatusMember chatMemberStatusBanned)
   /\ user_status_cache
        (snd (chat_member Ex.assistant (Ex.bot 100)
                (Ex.upd Ex.supergroup 777 chatMemberStatusMember chatMemberStatusBanned)
                Ex.w0)) =
      <[status_key Ex.supergroup 777 := chatMemberStatusBanned]> ∅)
  /\
  (~ writes_cache Ex.assistant
       (Ex.upd Ex.supergroup 777 chatMemberStatusLeft chatMemberStatusMember)
   /\ user_status_cache
        (snd (chat_member Ex.assistant (Ex.bot 100)
                (Ex.upd Ex.supergroup 777 chatMemberStatusLeft chatMemberStatusMember)
                Ex.w0)) = ∅).
Proof.
  assert (writes_cache Ex.assistant
            (Ex.upd Ex.supergroup 777 chatMemberStatusMember chatMemberStatusBanned))
    as H1.
  { unfold writes_cache, reaches_cache. simpl.
    split; [reflexivity |]. split; [lia |]. split; [reflexivity |].
    right. left. reflexivity. }
  assert (~ writes_cache Ex.assistant
            (Ex.upd Ex.supergroup 777 chatMemberStatusLeft chatMemberStatusMember))
    as H2.
  { unfold writes_cache, reaches_cache. simpl.
    intros (_ & _ & _ & [[[H | H] _] | [H | [H _]]]); discriminate H. }
  split.
  - split; [exact H1 |].
    exact (proj1 (cache_written_exactly_when Ex.assistant (Ex.bot 100) _ Ex.w0) H1).
  - split; [exact H2 |].
    exact (proj2 (cache_written_exactly_when Ex.assistant (Ex.bot 100) _ Ex.w0) H2).
Defined.

(** ** Cache keys *)

Lemma str_injective (a b : Z) : Py.str a = Py.str b -> a = b.
Proof.
  unfold Py.str. intros H. apply DecimalZ.to_int_inj.
  assert (forall z, NilZero.int_of_string (NilZero.string_of_int (Z.to_int z)) =
                    Some (Z.to_int z)) as Hparse.
  { intros z. apply NilZero.isi; destruct z; simpl; try discriminate;
      intros [= Hp]; now apply (DecimalPos.Unsigned.to_uint_nonnil p). }
  apply (f_equal NilZero.int_of_string) in H.
  rewrite !Hparse in H. now injection H.
Qed.

Lemma digits_no_colon (d : uint) :
  ~ In ":"%char (list_ascii_of_string (NilEmpty.string_of_uint d)).
Proof.
  induction d; simpl; intros H; try (destruct H as [H | H]; [discriminate H | auto]).
  exact H.
Qed.

Lemma str_no_colon (z : Z) : ~ In ":"%char (list_ascii_of_string (Py.str z)).
Proof.
  unfold Py.str.
  destruct (Z.to_int z) as [d | d]; simpl.
  - destruct d; try apply digits_no_colon.
    simpl. intros [H | []]. discriminate H.
  - intros [H | H]; [discriminate H |]. revert H.
    destruct d; try apply digits_no_colon.
    simpl. intros [H | []]. discriminate H.
Qed.

(** Two texts without a colon, each followed by a colon and a rest, agree
    only if the texts agree and the rests agree. *)
Lemma split_at_colon (s1 s2 t1 t2 : string) :
  ~ In ":"%char (list_ascii_of_string s1) ->
  ~ In ":"%char (list_ascii_of_string s2) ->
  s1 +:+ ":" +:+ t1 = s2 +:+ ":" +:+ t2 ->
  s1 = s2 /\ t1 = t2.
Proof.
  revert s2. induction s1 as [|a s1 IH]; intros [|b s2] H1 H2 H; simpl in *;
    cbv [String.append] in H; fold String.append in H.
  - now injection H as <-.
  - injection H as <- _. tauto.
  - injection H as -> _. tauto.
  - injection H as <- H. destruct (IH s2) as [<- <-]; tauto.
Qed.

Lemma status_key_inj (c1 m1 c2 m2 : Z) :
  status_key c1 m1 = status_key c2 m2 -> c1 = c2 /\ m1 = m2.
Proof.
  unfold status_key. intros H.
  apply split_at_colon in H; try apply str_no_colon.
  destruct H as [Hc Hm]. split; now apply str_injective.
Qed.

(** Extra X6.  The cache key tells the chat and the account apart: two
    keys are equal only for the same chat and the same account. *)
Theorem status_key_injective (c1 m1 c2 m2 : Z) :
  status_key c1 m1 = status_key c2 m2 <-> c1 = c2 /\ m1 = m2.
Proof.
  split; [apply status_key_inj | now intros [-> ->]].
Qed.

(** Extra X7.  An update touches no entry but the one of its own chat and
    subject: the entry of any other (chat, account) pair reads after the
    update as it read before. *)
Theorem other_entries_untouched
    (cg : Z -> GetClientResult) (client : Client) (u : UpdateChatMember) (w : World)
    (c m : Z) :
  (c, m) <> (chat_id u, user_id u) ->
  user_status_cache (snd (chat_member cg client u w)) !! status_key c m =
  user_status_cache w !! status_key c m.
Proof.
  intros Hne.
  destruct (chat_member_cache_cases cg client u w) as [[_ ->] | [_ ->]];
    [| reflexivity].
  apply lookup_insert_ne. intros [H1 H2]%status_key_inj. apply Hne. congruence.
Qed.

(** A ban in one supergroup leaves the entry of another as it was. *)
Lemma other_entries_untouched_witness :
  (-1005, 777) <> (Ex.supergroup, 777)
  /\ user_status_cache
       (snd (chat_member Ex.assistant (Ex.bot 100)
               (Ex.upd Ex.supergroup 777 chatMemberStatusMember chatMemberStatusBanned)
               (cached Ex.w0 (status_key (-1005) 777) chatMemberStatusLeft)))
       !! status_key (-1005) 777 = Some chatMemberStatusLeft.
Proof.
  assert ((-1005, 777) <> (Ex.supergroup, 777)) as H by discriminate.
  split; [exact H |].
  rewrite (other_entries_untouched Ex.assistant (Ex.bot 100)
             (Ex.upd Ex.supergroup 777 chatMemberStatusMember chatMemberStatusBanned)
             (cached Ex.w0 (status_key (-1005) 777) chatMemberStatusLeft)
             (-1005) 777 H).
  reflexivity.
Defined.

(** Extra X8.  The last write wins: of two updates for the same chat and
    the same assistant that both write the cache, processed one after the
    other, the entry holds the new status of the second.  A ban followed by
    an unban leaves [Left]. *)
Theorem last_write_wins
    (cg : Z -> GetClientResult) (client : Client) (u1 u2 : UpdateChatMember)
    (w : World) :
  writes_cache cg u1 ->
  writes_cache cg u2 ->
  chat_id u2 = chat_id u1 ->
  user_id u2 = user_id u1 ->
  user_status_cache
    (snd (chat_member cg client u2 (snd (chat_member cg client u1 w)))) =
  <[status_key (chat_id u1) (user_id u1) := new_status u2]> (user_status_cache w).
Proof.
  intros H1 H2 Hc Hu.
  destruct (chat_member_cache_cases cg client u2 (snd (chat_member cg client u1 w)))
    as [[_ ->] | [Hn _]]; [| contradiction].
  destruct (chat_member_cache_cases cg client u1 w) as [[_ ->] | [Hn _]];
    [| contradiction].
  rewrite Hc, Hu. apply insert_insert_eq.
Qed.

(** The assistant is banned, then unbanned. *)
Lemma last_write_wins_witness :
  (writes_cache Ex.assistant
     (Ex.upd Ex.supergroup 777 chatMemberStatusMember chatMemberStatusBanned) /\
   writes_cache Ex.assistant
     (Ex.upd Ex.supergroup 777 chatMemberStatusBanned chatMemberStatusLeft))
  /\ user_status_cache
       (snd (chat_member Ex.assistant (Ex.bot 100)
               (Ex.upd Ex.supergroup 777 chatMemberStatusBanned chatMemberStatusLeft)
               (snd (chat_member Ex.assistant (Ex.bot 100)
                       (Ex.upd Ex.supergroup 777 chatMemberStatusMember
                          chatMemberStatusBanned) Ex.w0))))
     = <[status_key Ex.supergroup 777 := chatMemberStatusLeft]> ∅.
Proof.
  assert (writes_cache Ex.assistant
            (Ex.upd Ex.supergroup 777 chatMemberStatusMember chatMemberStatusBanned))
    as H1.
  { unfold writes_cache, reaches_cache. simpl.
    split; [reflexivity |]. split; [lia |]. split; [reflexivity |].
    right. left. reflexivity. }
  assert (writes_cache Ex.assistant
            (Ex.upd Ex.supergroup 777 chatMemberStatusBanned chatMemberStatusLeft))
    as H2.
  { unfold writes_cache, reaches_cache. simpl.
    split; [reflexivity |]. split; [lia |]. split; [reflexivity |].
    right. right. split; reflexivity. }
  split; [split; [exact H1 | exact H2] |].
  exact (last_write_wins Ex.assistant (Ex.bot 100) _ _ Ex.w0 H1 H2 eq_refl eq_refl).
Defined.

(** Extra X9.  The cache only ever receives [Left] or [Banned]: if every
    value in the cache is one of the two before an update, so it is
    after. *)
Theorem cache_holds_left_or_banned
    (cg : Z -> GetClientResult) (client : Client) (u : UpdateChatMember) (w : World) :
  (forall k v, user_status_cache w !! k = Some v ->
               v = chatMemberStatusLeft \/ v = chatMemberStatusBanned) ->
  forall k v,
    user_status_cache (snd (chat_member cg client u w)) !! k = Some v ->
    v = chatMemberStatusLeft \/ v = chatMemberStatusBanned.
Proof.
  intros Hinv k v.
  destruct (chat_member_cache_cases cg client u w)
    as [[(_ & _ & _ & Hr) ->] | [_ ->]]; [| apply Hinv].
  rewrite lookup_insert. case_decide; [| apply Hinv].
  intros [= <-]. unfold reaches_cache in Hr. tauto.
Qed.

(** From an empty cache, a ban of the assistant. *)
Lemma cache_holds_left_or_banned_witness :
  (forall k v, user_status_cache Ex.w0 !! k = Some v ->
               v = chatMemberStatusLeft \/ v = chatMemberStatusBanned)
  /\ user_status_cache
       (snd (chat_member Ex.assistant (Ex.bot 100)
               (Ex.upd Ex.supergroup 777 chatMemberStatusMember chatMemberStatusBanned)
               Ex.w0)) !! status_key Ex.supergroup 777 = Some chatMemberStatusBanned
  /\ (chatMemberStatusBanned = chatMemberStatusLeft \/
      chatMemberStatusBanned = chatMemberStatusBanned).
Proof.
  assert (forall k v, user_status_cache Ex.w0 !! k = Some v ->
               v = chatMemberStatusLeft \/ v = chatMemberStatusBanned) as H.
  { intros k v. simpl. rewrite lookup_empty. discriminate. }
  assert (user_status_cache
       (snd (chat_member Ex.assistant (Ex.bot 100)
               (Ex.upd Ex.supergroup 777 chatMemberStatusMember chatMemberStatusBanned)
               Ex.w0)) !! status_key Ex.supergroup 777 = Some chatMemberStatusBanned)
    as Hl by reflexivity.
  split; [exact H |]. split; [exact Hl |].
  exact (cache_holds_left_or_banned Ex.assistant (Ex.bot 100)
           (Ex.upd Ex.supergroup 777 chatMemberStatusMember chatMemberStatusBanned)
           Ex.w0 H (status_key Ex.supergroup 777) chatMemberStatusBanned Hl).
Defined.

(** * The events of an update *)

Lemma events_since_after (w : World) (evs : list Event) :
  events_since w (after w evs) = evs.
Proof. unfold events_since, after. simpl. apply drop_app_length. Qed.

Lemma events_since_cached (w : World) (evs : list Event) (key status : string) :
  events_since w (cached (after w evs) key status) = evs.
Proof. unfold events_since, cached, after. simpl. apply drop_app_length. Qed.

Section Events.

Variable cg : Z -> GetClientResult.
Variable client : Client.

Lemma update_cache_events (c uid : Z) (status : string) (w : World) (evs : list Event) :
  exists w',
    _update_user_status_cache cg c uid status (after w evs) = (Return tt, w')
    /\ events_since w w' = (evs ++ [GetClient c])%list.
Proof.
  destruct (assistant_or_not cg c uid) as [Ha | Ha].
  - rewrite (update_cache_self cg c uid status _ Ha), after_after.
    eexists. split; [reflexivity | apply events_since_cached].
  - rewrite (update_cache_other cg c uid status _ Ha), after_after.
    eexists. split; [reflexivity | apply events_since_after].
Qed.

(** The promotion handler, run. *)
Lemma handle_promotion_demotion_run (c uid : Z) (old new : string) (w : World) :
  _handle_promotion_demotion client c uid old new w =
    (Return tt,
     after w
       (if is_promoted old new || is_demoted old new then
          [if (uid =? my_id client) && is_promoted old new then
             Log INFO "Bot promoted in %s. Reloading admin cache." [AInt c]
           else
             Log INFO "User %s was %s in %s."
               [AInt uid;
                AStr (if is_promoted old new then "promoted" else "demoted");
                AInt c];
           LoadAdminCache c true]
        else [])).
Proof.
  unfold_handlers.
  destruct (is_promoted old new || is_demoted old new); simpl;
    [| now rewrite after_nil].
  destruct ((uid =? my_id client) && is_promoted old new); close_world.
Qed.

(** The flags of the promotion handler, as statements about the two
    statuses. *)
Lemma promoted_or_demoted_iff (old new : string) :
  is_promoted old new || is_demoted old new = true <->
  (new = chatMemberStatusAdministrator /\ old <> chatMemberStatusAdministrator)
  \/ (old = chatMemberStatusAdministrator /\ new <> chatMemberStatusAdministrator).
Proof.
  unfold is_promoted, is_demoted.
  destruct (String.eqb_spec old chatMemberStatusAdministrator);
    destruct (String.eqb_spec new chatMemberStatusAdministrator);
    simpl; split; intros H; try discriminate; tauto.
Qed.

(** The events of an update, case by case. *)
Lemma chat_member_events (u : UpdateChatMember) (w : World) :
  let c := chat_id u in
  let uid := user_id u in
  let evs := events_since w (snd (chat_member cg client u w)) in
  (is_valid_supergroup c = false /\
   evs = if c >? 0 then [] else reject_events client c)
  \/ (is_valid_supergroup c = true /\ uid = 0 /\ evs = [DbAddChat c])
  \/ (is_valid_supergroup c = true /\ uid <> 0 /\
      ((old_status u = chatMemberStatusLeft /\
        (new_status u = chatMemberStatusMember \/
         new_status u = chatMemberStatusAdministrator) /\
        ((uid <> my_id client /\
          evs = [DbAddChat c;
                 Log INFO "User %s joined the chat %s." [AInt uid; AInt c]])
         \/ (uid = my_id client /\
             Py.int (Py.slice_from 4 (Py.str c)) = None /\
             evs = [DbAddChat c;
                    Log INFO "Bot joined the chat %s." [AInt c];
                    Log ERROR "Error processing chat member update in %s: %s"
                      [AInt c; AExn ValueError]])
         \/ (uid = my_id client /\
             exists n,
               Py.int (Py.slice_from 4 (Py.str c)) = Some n /\
               ((supergroup_full_info client n = SupergroupFullInfoError /\
                 evs = [DbAddChat c;
                        Log INFO "Bot joined the chat %s." [AInt c];
                        GetSupergroupFullInfo n;
                        Log WARNING "Failed to get supergroup info for %s" [AInt n];
                        Log INFO "User %s joined the chat %s." [AInt uid; AInt c]])
                \/ (exists mc,
                      supergroup_full_info client n = SupergroupFullInfo mc /\
                      50 <= mc /\
                      evs = [DbAddChat c;
                             Log INFO "Bot joined the chat %s." [AInt c];
                             GetSupergroupFullInfo n;
                             Log INFO "User %s joined the chat %s."
                               [AInt uid; AInt c]])
                \/ (exists mc,
                      supergroup_full_info client n = SupergroupFullInfo mc /\
                      mc < 50 /\
                      evs = [DbAddChat c;
                             Log INFO "Bot joined the chat %s." [AInt c];
                             GetSupergroupFullInfo n;
                             SendTextMessage n (too_few_members_text mc)
                               (Some SupportButton);
                             Sleep 1;
                             LeaveChat n;
                             DbRemoveChat n;
                             Log INFO "User %s joined the chat %s."
                               [AInt uid; AInt c]])))))
       \/ (reaches_cache (old_status u) (new_status u) /\
           exists line,
             evs = [DbAddChat c; Log INFO line [AInt uid; AInt c]; GetClient c])
       \/ (~ (old_status u = chatMemberStatusLeft /\
              (new_status u = chatMemberStatusMember \/
               new_status u = chatMemberStatusAdministrator)) /\
           ~ reaches_cache (old_status u) (new_status u) /\
           evs = DbAddChat c ::
                 (if is_promoted (old_status u) (new_status u)
                     || is_demoted (old_status u) (new_status u)
                  then
                    [if (uid =? my_id client)
                        && is_promoted (old_status u) (new_status u)
                     then Log INFO "Bot promoted in %s. Reloading admin cache." [AInt c]
                     else
                       Log INFO "User %s was %s in %s."
                         [AInt uid;
                          AStr (if is_promoted (old_status u) (new_status u)
                                then "promoted" else "demoted");
                          AInt c];
                     LoadAdminCache c true]
                  else [])))).
Proof.
  intros c uid evs. subst c uid evs.
  destruct (is_valid_supergroup (chat_id u)) eqn:Hv.
  2: { left. split; [reflexivity |].
       destruct (Z.gtb_spec (chat_id u) 0).
       - rewrite chat_member_positive by assumption.
         rewrite <- (after_nil w) at 2. apply events_since_after.
       - rewrite chat_member_rejected by assumption. apply events_since_after. }
  right.
  destruct (Z.eq_dec (user_id u) 0) as [Hz | Hnz].
  { left. split; [reflexivity |]. split; [assumption |].
    rewrite chat_member_supergroup, Hz by assumption. apply events_since_after. }
  right. split; [reflexivity |]. split; [assumption |].
  destruct (dispatch_cases cg client (chat_id u) (user_id u)
              (old_status u) (new_status u))
    as [(Ho & Hn & Hd) | [(Ho & Hn & Hd) | [(Hn & Hd) | [(Ho & Hn & Hd)
       | (N1 & N2 & N3 & N4 & Hd)]]]].
  - (* join *)
    left. split; [assumption |]. split; [assumption |].
    destruct (Z.eq_dec (user_id u) (my_id client)) as [Hme | Hme].
    + right.
      destruct (Py.int (Py.slice_from 4 (Py.str (chat_id u)))) as [n|] eqn:Hint.
      * right. split; [assumption |]. exists n. split; [reflexivity |].
        destruct (supergroup_full_info client n) as [mc|] eqn:Hi;
          [destruct (Z.ltb_spec mc 50) as [Hm | Hm] |].
        -- right. right. exists mc. split; [reflexivity |]. split; [assumption |].
           rewrite (self_join_too_small cg client u Hv Hme Hnz Ho Hn n mc w Hint Hi Hm).
           apply events_since_after.
        -- right. left. exists mc. split; [reflexivity |]. split; [assumption |].
           rewrite (self_join_sufficient cg client u Hv Hme Hnz Ho Hn n mc w Hint Hi Hm).
           apply events_since_after.
        -- left. split; [reflexivity |].
           rewrite (self_join_lookup_failed cg client u Hv Hme Hnz Ho Hn n w Hint Hi).
           apply events_since_after.
      * left. split; [assumption |]. split; [reflexivity |].
        rewrite (self_join_value_error cg client u Hv Hme Hnz Ho Hn w Hint).
        apply events_since_after.
    + left. split; [assumption |].
      rewrite chat_member_supergroup by assumption.
      apply Z.eqb_neq in Hnz. rewrite Hnz, Hd.
      unfold _handle_join, bind, ret, LOGGER, emit.
      apply Z.eqb_neq in Hme. rewrite Hme. simpl.
      unfold events_since. simpl. rewrite <- app_assoc. apply drop_app_length.
  - (* leave or kick *)
    right. left. split; [unfold reaches_cache; tauto |].
    eexists.
    rewrite chat_member_supergroup by assumption.
    apply Z.eqb_neq in Hnz. rewrite Hnz, Hd.
    rewrite (proj1 (leave_ban_unban_unfold cg _ _ _)), after_after.
    destruct (update_cache_events (chat_id u) (user_id u) chatMemberStatusLeft w
                ([DbAddChat (chat_id u)] ++
                 [Log INFO "User %s left or was kicked from %s."
                    [AInt (user_id u); AInt (chat_id u)]])) as (w' & Hrun & Hev).
    rewrite Hrun. cbn [snd]. rewrite Hev. reflexivity.
  - (* ban *)
    right. left. split; [unfold reaches_cache; tauto |].
    eexists.
    rewrite chat_member_supergroup by assumption.
    apply Z.eqb_neq in Hnz. rewrite Hnz, Hd.
    rewrite (proj1 (proj2 (leave_ban_unban_unfold cg _ _ _))), after_after.
    destruct (update_cache_events (chat_id u) (user_id u) chatMemberStatusBanned w
                ([DbAddChat (chat_id u)] ++
                 [Log INFO "User %s was banned in %s."
                    [AInt (user_id u); AInt (chat_id u)]])) as (w' & Hrun & Hev).
    rewrite Hrun. cbn [snd]. rewrite Hev. reflexivity.
  - (* unban *)
    right. left. split; [unfold reaches_cache; tauto |].
    eexists.
    rewrite chat_member_supergroup by assumption.
    apply Z.eqb_neq in Hnz. rewrite Hnz, Hd.
    rewrite (proj2 (proj2 (leave_ban_unban_unfold cg _ _ _))), after_after.
    destruct (update_cache_events (chat_id u) (user_id u) chatMemberStatusLeft w
                ([DbAddChat (chat_id u)] ++
                 [Log INFO "User %s was unbanned in %s."
                    [AInt (user_id u); AInt (chat_id u)]])) as (w' & Hrun & Hev).
    rewrite Hrun. cbn [snd]. rewrite Hev. reflexivity.
  - (* promotion or demotion *)
    right. right. split; [assumption |]. split; [unfold reaches_cache; tauto |].
    rewrite chat_member_supergroup by assumption.
    apply Z.eqb_neq in Hnz. rewrite Hnz, Hd.
    rewrite handle_promotion_demotion_run, after_after.
    apply events_since_after.
Qed.

End Events.

(** * What an update does, and when *)

(** No transition is taken by two of: the join rule, the rules that reach
    the cache, a reload of the admin list. *)
Lemma rules_exclusive (old new : string) :
  ~ (joins old new /\ reaches_cache old new)
  /\ ~ (joins old new /\ reloads_admins old new)
  /\ ~ (reaches_cache old new /\ reloads_admins old new).
Proof.
  unfold joins, reaches_cache, reloads_admins.
  destruct status_tags_distinct as (Hlm & Hla & Hlb & Hma & Hmb & Hab).
  repeat split; intuition congruence.
Qed.

Lemma reloads_admins_flags (old new : string) :
  ~ joins old new ->
  ~ reaches_cache old new ->
  (is_promoted old new || is_demoted old new = true <-> reloads_admins old new).
Proof.
  unfold joins, reaches_cache, reloads_admins. intros Hj Hr.
  rewrite promoted_or_demoted_iff. intuition congruence.
Qed.

Ltac events_cases cg client u w :=
  let Hv := fresh "Hv" in
  let Hu := fresh "Hu" in
  let Ho := fresh "Ho" in
  let Hn := fresh "Hn" in
  let Hme := fresh "Hme" in
  let Hint := fresh "Hint" in
  let Hi := fresh "Hi" in
  let Hm := fresh "Hm" in
  let Hr := fresh "Hr" in
  let Hj := fresh "Hj" in
  let He := fresh "He" in
  let n := fresh "n" in
  let mc := fresh "mc" in
  let line := fresh "line" in
  destruct (chat_member_events cg client u w)
    as [(Hv & He)
       | [(Hv & Hu & He)
         | (Hv & Hu &
            [(Ho & Hn &
              [(Hme & He)
              | [(Hme & Hint & He)
                | (Hme & n & Hint &
                   [(Hi & He) | [(mc & Hi & Hm & He) | (mc & Hi & Hm & He)]])]])
            | [(Hr & line & He) | (Hj & Hr & He)]])]];
  rewrite He; clear He.

(** Extra X10.  The admin list is reloaded, always for the chat of the
    update and always forced, exactly when the update is for a supergroup,
    its subject is not zero, and the administrator status came or went
    without an earlier rule taking the transition.  So a user who joins as
    administrator, and an administrator who leaves or is banned, cause no
    reload. *)
Theorem admin_reload_exactly_when
    (cg : Z -> GetClientResult) (client : Client) (u : UpdateChatMember) (w : World)
    (c : Z) (force : bool) :
  In (LoadAdminCache c force) (events_since w (snd (chat_member cg client u w)))
  <->
  c = chat_id u /\ force = true /\
  is_valid_supergroup (chat_id u) = true /\
  user_id u <> 0 /\
  reloads_admins (old_status u) (new_status u).
Proof.
  destruct (rules_exclusive (old_status u) (new_status u)) as (X1 & X2 & X3).
  events_cases cg client u w.
  - destruct (chat_id u >? 0); simpl; split;
      [intros [] | intros (_ & _ & ? & _); congruence
      | intros H; decompose [or] H; discriminate || contradiction
      | intros (_ & _ & ? & _); congruence].
  - simpl. split; [intros H; decompose [or] H; discriminate || contradiction | tauto].
  - simpl. split; [intros H; decompose [or] H; discriminate || contradiction |].
    intros (_ & _ & _ & _ & ?). unfold joins in X2. tauto.
  - simpl. split; [intros H; decompose [or] H; discriminate || contradiction |].
    intros (_ & _ & _ & _ & ?). unfold joins in X2. tauto.
  - simpl. split; [intros H; decompose [or] H; discriminate || contradiction |].
    intros (_ & _ & _ & _ & ?). unfold joins in X2. tauto.
  - simpl. split; [intros H; decompose [or] H; discriminate || contradiction |].
    intros (_ & _ & _ & _ & ?). unfold joins in X2. tauto.
  - simpl. split; [intros H; decompose [or] H; discriminate || contradiction |].
    intros (_ & _ & _ & _ & ?). unfold joins in X2. tauto.
  - simpl. split; [intros H; decompose [or] H; discriminate || contradiction |].
    intros (_ & _ & _ & _ & ?). tauto.
  - pose proof (reloads_admins_flags (old_status u) (new_status u) Hj Hr) as Hflags.
    destruct (is_promoted (old_status u) (new_status u)
              || is_demoted (old_status u) (new_status u)).
    + assert (reloads_admins (old_status u) (new_status u)) as Hre by now apply Hflags.
      simpl. split.
      * intros [H | [H | [H | []]]]; try discriminate H.
        -- destruct (_ && _) in H; discriminate H.
        -- injection H as <- <-. tauto.
      * intros (-> & -> & _). tauto.
    + simpl. split.
      * intros [H | []]. discriminate H.
      * intros (_ & _ & _ & _ & Hre). apply Hflags in Hre. discriminate Hre.
Qed.

(** A user is promoted: reload.  The premise and the event, both. *)
Lemma admin_reload_exactly_when_witness :
  (Ex.supergroup = chat_id (Ex.upd Ex.supergroup 42 chatMemberStatusMember
                              chatMemberStatusAdministrator) /\
   true = true /\
   is_valid_supergroup Ex.supergroup = true /\
   42 <> 0 /\
   reloads_admins chatMemberStatusMember chatMemberStatusAdministrator)
  /\ In (LoadAdminCache Ex.supergroup true)
        (events_since Ex.w0
           (snd (chat_member Ex.assistant (Ex.bot 100)
                   (Ex.upd Ex.supergroup 42 chatMemberStatusMember
                      chatMemberStatusAdministrator) Ex.w0))).
Proof.
  assert (Ex.supergroup = chat_id (Ex.upd Ex.supergroup 42 chatMemberStatusMember
                              chatMemberStatusAdministrator) /\
   true = true /\
   is_valid_supergroup Ex.supergroup = true /\
   42 <> 0 /\
   reloads_admins chatMemberStatusMember chatMemberStatusAdministrator) as H.
  { split; [reflexivity |]. split; [reflexivity |]. split; [reflexivity |].
    split; [lia |]. left. split; [reflexivity |]. split; discriminate. }
  split; [exact H |].
  exact (proj2 (admin_reload_exactly_when Ex.assistant (Ex.bot 100)
                  (Ex.upd Ex.supergroup 42 chatMemberStatusMember
                     chatMemberStatusAdministrator) Ex.w0 Ex.supergroup true) H).
Defined.

(** Extra X11.  A chat record is removed only by the kick, and then it is
    the record of the id cut from the chat id; a chat is left by the kick
    or by the rejection of a chat that is not a supergroup, and by nothing
    else. *)
Theorem leave_and_removal_exactly_when
    (cg : Z -> GetClientResult) (client : Client) (u : UpdateChatMember) (w : World)
    (n : Z) :
  (In (DbRemoveChat n) (events_since w (snd (chat_member cg client u w)))
   <-> kicks client u n)
  /\
  (In (LeaveChat n) (events_since w (snd (chat_member cg client u w)))
   <-> kicks client u n \/
       (is_valid_supergroup (chat_id u) = false /\ chat_id u <= 0 /\ n = chat_id u)).
Proof.
  destruct (rules_exclusive (old_status u) (new_status u)) as (X1 & X2 & X3).
  unfold kicks, joins in *.
  events_cases cg client u w.
  - destruct (Z.gtb_spec (chat_id u) 0) as [Hpos | Hpos]; unfold reject_events; cbn [In]; split; split;
      try solve [intros []];
      try (intros H; decompose [or] H; discriminate || contradiction);
      try (intros (? & _); congruence).
    + intros [(? & _) | (_ & ? & _)]; [congruence | lia].
    + intros H; decompose [or] H; try discriminate; try contradiction.
      match goal with H : LeaveChat _ = LeaveChat _ |- _ => injection H as <- end.
      right. repeat split; assumption.
    + intros [(? & _) | (_ & _ & ->)]; [congruence | tauto].
  - cbn [In]. split; split;
      try (intros H; decompose [or] H; discriminate || contradiction);
      intros H; decompose [and or] H; congruence.
  - cbn [In]. split; split;
      try (intros H; decompose [or] H; discriminate || contradiction);
      intros H; decompose [and or] H; congruence.
  - cbn [In]. split; split;
      try (intros H; decompose [or] H; discriminate || contradiction);
      intros H; decompose [and or] H; congruence.
  - cbn [In]. split; split;
      try (intros H; decompose [or] H; discriminate || contradiction);
      intros H; decompose [and or ex] H; congruence.
  - cbn [In]. split; split;
      try (intros H; decompose [or] H; discriminate || contradiction);
      intros H; decompose [and or ex] H; try congruence;
      match goal with
      | H1 : supergroup_full_info client ?a = SupergroupFullInfo ?x,
        H2 : supergroup_full_info client ?b = SupergroupFullInfo ?y |- _ =>
          assert (a = b) as E by congruence; rewrite E in H1; rewrite H1 in H2;
          injection H2 as ->; lia
      end.
  - cbn [In]. split; split.
    + intros H; decompose [or] H; try discriminate; try contradiction.
      match goal with H : DbRemoveChat _ = DbRemoveChat _ |- _ => injection H as <- end.
      repeat split; try assumption. exists mc. now split.
    + intros (_ & _ & _ & _ & Hint' & _).
      assert (n0 = n) as -> by congruence. tauto.
    + intros H; decompose [or] H; try discriminate; try contradiction.
      match goal with H : LeaveChat _ = LeaveChat _ |- _ => injection H as <- end.
      left. repeat split; try assumption. exists mc. now split.
    + intros [(_ & _ & _ & _ & Hint' & _) | (? & _)]; [| congruence].
      assert (n0 = n) as -> by congruence. tauto.
  - cbn [In]. split; split;
      try (intros H; decompose [or] H; discriminate || contradiction);
      intros H; decompose [and or ex] H; try congruence; tauto.
  - destruct (is_promoted (old_status u) (new_status u)
              || is_demoted (old_status u) (new_status u));
      [destruct (_ && _) |];
      cbn [In]; split; split;
      try (intros H; decompose [or] H; discriminate || contradiction);
      intros H; decompose [and or ex] H; try congruence; tauto.
Qed.

(** The bot joins a supergroup of 49 members. *)
Lemma leave_and_removal_exactly_when_witness :
  kicks (Ex.bot 49)
    (Ex.upd Ex.supergroup 777 chatMemberStatusLeft chatMemberStatusMember) 1234567890
  /\ In (DbRemoveChat 1234567890)
        (events_since Ex.w0
           (snd (chat_member Ex.assistant (Ex.bot 49)
                   (Ex.upd Ex.supergroup 777 chatMemberStatusLeft
                      chatMemberStatusMember) Ex.w0))).
Proof.
  assert (kicks (Ex.bot 49)
    (Ex.upd Ex.supergroup 777 chatMemberStatusLeft chatMemberStatusMember) 1234567890)
    as H.
  { unfold kicks, joins. simpl.
    split; [reflexivity |]. split; [lia |]. split; [reflexivity |].
    split; [split; [reflexivity | left; reflexivity] |].
    split; [reflexivity |]. exists 49. split; [reflexivity | lia]. }
  split; [exact H |].
  exact (proj2 (proj1 (leave_and_removal_exactly_when Ex.assistant (Ex.bot 49)
                         (Ex.upd Ex.supergroup 777 chatMemberStatusLeft
                            chatMemberStatusMember) Ex.w0 1234567890)) H).
Defined.

(** Extra X12.  A chat record is written only for a supergroup, under the
    chat id as it came, and then by every update for it, whatever the
    subject and the statuses. *)
Theorem chat_recorded_exactly_when
    (cg : Z -> GetClientResult) (client : Client) (u : UpdateChatMember) (w : World)
    (c : Z) :
  In (DbAddChat c) (events_since w (snd (chat_member cg client u w)))
  <-> c = chat_id u /\ is_valid_supergroup (chat_id u) = true.
Proof.
  events_cases cg client u w.
  - destruct (chat_id u >? 0); simpl; split;
      try solve [intros []];
      try (intros H; decompose [or] H; discriminate || contradiction);
      intros (_ & ?); congruence.
  - simpl. split; [intros [[= <-] | []]; now split | intros [-> _]; now left].
  - simpl. split; [intros [[= <-] | H]; [now split |] | intros [-> _]; now left].
    decompose [or] H; discriminate || contradiction.
  - simpl. split; [intros [[= <-] | H]; [now split |] | intros [-> _]; now left].
    decompose [or] H; discriminate || contradiction.
  - simpl. split; [intros [[= <-] | H]; [now split |] | intros [-> _]; now left].
    decompose [or] H; discriminate || contradiction.
  - simpl. split; [intros [[= <-] | H]; [now split |] | intros [-> _]; now left].
    decompose [or] H; discriminate || contradiction.
  - simpl. split; [intros [[= <-] | H]; [now split |] | intros [-> _]; now left].
    decompose [or] H; discriminate || contradiction.
  - simpl. split; [intros [[= <-] | H]; [now split |] | intros [-> _]; now left].
    decompose [or] H; discriminate || contradiction.
  - split; [intros [[= <-] | H]; [now split |] | intros [-> _]; now left].
    destruct (_ || _); [destruct (_ && _) |]; simpl in H;
      decompose [or] H; discriminate || contradiction.
Qed.

(** A zero subject in a supergroup: the chat is recorded all the same. *)
Lemma chat_recorded_exactly_when_witness :
  (Ex.supergroup = chat_id (Ex.upd Ex.supergroup 0 chatMemberStatusLeft
                              chatMemberStatusLeft) /\
   is_valid_supergroup Ex.supergroup = true)
  /\ In (DbAddChat Ex.supergroup)
        (events_since Ex.w0
           (snd (chat_member Ex.assistant (Ex.bot 100)
                   (Ex.upd Ex.supergroup 0 chatMemberStatusLeft chatMemberStatusLeft)
                   Ex.w0))).
Proof.
  assert (Ex.supergroup = chat_id (Ex.upd Ex.supergroup 0 chatMemberStatusLeft
                              chatMemberStatusLeft) /\
   is_valid_supergroup Ex.supergroup = true) as H by (split; reflexivity).
  split; [exact H |].
  exact (proj2 (chat_recorded_exactly_when Ex.assistant (Ex.bot 100)
                  (Ex.upd Ex.supergroup 0 chatMemberStatusLeft chatMemberStatusLeft)
                  Ex.w0 Ex.supergroup) H).
Defined.

(** Extra X13.  An update does nothing but record the chat exactly when
    it is for a supergroup and either its subject is zero, or its
    transition is no join, reaches no cache rule and changes no
    administrator status: a status that did not change (other than
    [Banned]), or a banned user who shows up as a member. *)
Theorem only_recorded_exactly_when
    (cg : Z -> GetClientResult) (client : Client) (u : UpdateChatMember) (w : World) :
  events_since w (snd (chat_member cg client u w)) = [DbAddChat (chat_id u)]
  <->
  is_valid_supergroup (chat_id u) = true /\
  (user_id u = 0 \/
   (~ joins (old_status u) (new_status u) /\
    ~ reaches_cache (old_status u) (new_status u) /\
    ~ reloads_admins (old_status u) (new_status u))).
Proof.
  unfold joins.
  events_cases cg client u w.
  - destruct (chat_id u >? 0); simpl; split;
      try discriminate; intros (? & _); congruence.
  - split; [intros _; split; [assumption | now left] | reflexivity].
  - split; [discriminate | intros (_ & [? | (? & _)]); [contradiction | tauto]].
  - split; [discriminate | intros (_ & [? | (? & _)]); [contradiction | tauto]].
  - split; [discriminate | intros (_ & [? | (? & _)]); [contradiction | tauto]].
  - split; [discriminate | intros (_ & [? | (? & _)]); [contradiction | tauto]].
  - split; [discriminate | intros (_ & [? | (? & _)]); [contradiction | tauto]].
  - split; [discriminate | intros (_ & [? | (_ & ? & _)]); [contradiction | tauto]].
  - pose proof (reloads_admins_flags (old_status u) (new_status u) Hj Hr) as Hflags.
    destruct (is_promoted (old_status u) (new_status u)
              || is_demoted (old_status u) (new_status u)).
    + split; [discriminate |].
      intros (_ & [? | (_ & _ & Hre)]); [contradiction |].
      exfalso. apply Hre. now apply Hflags.
    + split; [| reflexivity].
      intros _. split; [assumption |]. right.
      split; [assumption |]. split; [assumption |].
      intros Hre. apply Hflags in Hre. discriminate Hre.
Qed.

(** A banned user shows up as a member: recorded, nothing else. *)
Lemma only_recorded_exactly_when_witness :
  (is_valid_supergroup Ex.supergroup = true /\
   (42 = 0 \/
    (~ joins chatMemberStatusBanned chatMemberStatusMember /\
     ~ reaches_cache chatMemberStatusBanned chatMemberStatusMember /\
     ~ reloads_admins chatMemberStatusBanned chatMemberStatusMember)))
  /\ events_since Ex.w0
       (snd (chat_member Ex.assistant (Ex.bot 100)
               (Ex.upd Ex.supergroup 42 chatMemberStatusBanned chatMemberStatusMember)
               Ex.w0)) = [DbAddChat Ex.supergroup].
Proof.
  assert (is_valid_supergroup Ex.supergroup = true /\
   (42 = 0 \/
    (~ joins chatMemberStatusBanned chatMemberStatusMember /\
     ~ reaches_cache chatMemberStatusBanned chatMemberStatusMember /\
     ~ reloads_admins chatMemberStatusBanned chatMemberStatusMember))) as H.
  { split; [reflexivity |]. right.
    unfold joins, reaches_cache, reloads_admins.
    repeat split; intros H; decompose [and or] H; discriminate. }
  split; [exact H |].
  exact (proj2 (only_recorded_exactly_when Ex.assistant (Ex.bot 100)
                  (Ex.upd Ex.supergroup 42 chatMemberStatusBanned chatMemberStatusMember)
                  Ex.w0) H).
Defined.

(** Extra X14.  Lifecycle messages and the status cache do not meet: a
    message handled by [new_message] leaves the cache as it was, so
    handling one before a member update changes nothing in what the update
    leaves in the cache. *)
Theorem lifecycle_messages_keep_cache
    (cg : Z -> GetClientResult) (client : Client)
    (u : UpdateChatMember) (m : UpdateNewMessage) (w : World) :
  user_status_cache (snd (new_message client m w)) = user_status_cache w
  /\ user_status_cache
       (snd (chat_member cg client u (snd (new_message client m w)))) =
     user_status_cache (snd (chat_member cg client u w)).
Proof.
  assert (user_status_cache (snd (new_message client m w)) = user_status_cache w)
    as Hm.
  { unfold_handlers. destruct (message m) as [msg|]; [| reflexivity].
    destruct (content msg); reflexivity. }
  split; [exact Hm |].
  destruct (chat_member_cache_cases cg client u (snd (new_message client m w)))
    as [[Hw ->] | [Hw ->]];
    destruct (chat_member_cache_cases cg client u w) as [[Hw' ->] | [Hw' ->]];
    try contradiction; now rewrite Hm.
Qed.

(** Extra X15.  The two lookups.  The assistant of a chat is asked for
    exactly when the update is for a supergroup, its subject is not zero
    and the transition is a leave or kick, a ban or an unban, whoever the
    subject is.  The supergroup info is fetched exactly when the bot itself
    joins a supergroup whose id has digits after the prefix, and then for
    the number those digits spell. *)
Theorem lookups_exactly_when
    (cg : Z -> GetClientResult) (client : Client) (u : UpdateChatMember) (w : World)
    (c : Z) :
  (In (GetClient c) (events_since w (snd (chat_member cg client u w)))
   <-> c = chat_id u /\
       is_valid_supergroup (chat_id u) = true /\
       user_id u <> 0 /\
       reaches_cache (old_status u) (new_status u))
  /\
  (In (GetSupergroupFullInfo c) (events_since w (snd (chat_member cg client u w)))
   <-> is_valid_supergroup (chat_id u) = true /\
       user_id u <> 0 /\
       user_id u = my_id client /\
       joins (old_status u) (new_status u) /\
       Py.int (Py.slice_from 4 (Py.str (chat_id u))) = Some c).
Proof.
  destruct (rules_exclusive (old_status u) (new_status u)) as (X1 & X2 & X3).
  unfold joins in *.
  events_cases cg client u w.
  - destruct (chat_id u >? 0); unfold reject_events; cbn [In]; split; split;
      try solve [intros []];
      try (intros H; decompose [or] H; discriminate || contradiction);
      intros H; decompose [and] H; congruence.
  - cbn [In]. split; split;
      try (intros H; decompose [or] H; discriminate || contradiction);
      intros H; decompose [and] H; congruence.
  - cbn [In]. split; split;
      try (intros H; decompose [or] H; discriminate || contradiction);
      intros H; decompose [and] H; try congruence; tauto.
  - cbn [In]. split; split;
      try (intros H; decompose [or] H; discriminate || contradiction);
      intros H; decompose [and] H; try congruence; tauto.
  - cbn [In]. split; split.
    + intros H; decompose [or] H; discriminate || contradiction.
    + intros H; decompose [and] H; tauto.
    + intros H; decompose [or] H; try discriminate; try contradiction.
      match goal with
      | H : GetSupergroupFullInfo _ = GetSupergroupFullInfo _ |- _ => injection H as <-
      end.
      repeat split; assumption.
    + intros (_ & _ & _ & _ & Hint').
      assert (n = c) as -> by congruence. tauto.
  - cbn [In]. split; split.
    + intros H; decompose [or] H; discriminate || contradiction.
    + intros H; decompose [and] H; tauto.
    + intros H; decompose [or] H; try discriminate; try contradiction.
      match goal with
      | H : GetSupergroupFullInfo _ = GetSupergroupFullInfo _ |- _ => injection H as <-
      end.
      repeat split; assumption.
    + intros (_ & _ & _ & _ & Hint').
      assert (n = c) as -> by congruence. tauto.
  - cbn [In]. split; split.
    + intros H; decompose [or] H; discriminate || contradiction.
    + intros H; decompose [and] H; tauto.
    + intros H; decompose [or] H; try discriminate; try contradiction.
      match goal with
      | H : GetSupergroupFullInfo _ = GetSupergroupFullInfo _ |- _ => injection H as <-
      end.
      repeat split; assumption.
    + intros (_ & _ & _ & _ & Hint').
      assert (n = c) as -> by congruence. tauto.
  - cbn [In]. split; split.
    + intros H; decompose [or] H; try discriminate; try contradiction.
      match goal with
      | H : GetClient _ = GetClient _ |- _ => injection H as <-
      end.
      repeat split; assumption.
    + intros (-> & _). tauto.
    + intros H; decompose [or] H; discriminate || contradiction.
    + intros H; decompose [and] H; tauto.
  - destruct (is_promoted (old_status u) (new_status u)
              || is_demoted (old_status u) (new_status u));
      [destruct (_ && _) |];
      cbn [In]; split; split;
      try (intros H; decompose [or] H; discriminate || contradiction);
      intros H; decompose [and] H; tauto.
Qed.

(** User 42, not the assistant, is banned: the assistant is asked for. *)
Lemma lookups_exactly_when_witness :
  (Ex.supergroup = chat_id (Ex.upd Ex.supergroup 42 chatMemberStatusMember
                              chatMemberStatusBanned) /\
   is_valid_supergroup Ex.supergroup = true /\
   42 <> 0 /\
   reaches_cache chatMemberStatusMember chatMemberStatusBanned)
  /\ In (GetClient Ex.supergroup)
        (events_since Ex.w0
           (snd (chat_member Ex.assistant (Ex.bot 100)
                   (Ex.upd Ex.supergroup 42 chatMemberStatusMember
                      chatMemberStatusBanned) Ex.w0))).
Proof.
  assert (Ex.supergroup = chat_id (Ex.upd Ex.supergroup 42 chatMemberStatusMember
                              chatMemberStatusBanned) /\
   is_valid_supergroup Ex.supergroup = true /\
   42 <> 0 /\
   reaches_cache chatMemberStatusMember chatMemberStatusBanned) as H.
  { split; [reflexivity |]. split; [reflexivity |]. split; [lia |].
    right. left. reflexivity. }
  split; [exact H |].
  exact (proj2 (proj1 (lookups_exactly_when Ex.assistant (Ex.bot 100)
                         (Ex.upd Ex.supergroup 42 chatMemberStatusMember
                            chatMemberStatusBanned) Ex.w0 Ex.supergroup)) H).
Defined.
